(** * currency-bot: the notification decision engine, the rate fetcher and
    its retry wrapper, and the e-mail renderer.

    A shallow embedding of
      - common/notifications/base_notifications.py (BaseNotificationManager),
      - common/monitor/base_monitor.py (BaseMonitor),
      - currency/monitor/currency_monitor.py (CurrencyMonitor),
      - currency/notifications/currency_notifications.py
        (CurrencyNotificationManager),
      - currency_bot.py (CADRMBCurrencyBot.run_continuous_monitoring),
    followed by the properties the specification states about them. *)

From Stdlib Require Import ZArith Bool List Ascii String DecimalString.
From Stdlib Require Import Floats.SpecFloat.
From stdpp Require Import base option gmap strings list.

Local Open Scope string_scope.
Local Open Scope Z_scope.
Local Open Scope list_scope.

(** ** Python floats

    A Python [float] is an IEEE-754 binary64 number.  [spec_float] is the
    Standard Library's inductive description of such numbers; the operations
    are its operations at precision 53 and maximal exponent 1024. *)
Module PyFloat.

Definition prec : Z := 53.
Definition emax : Z := 1024.

Definition sub : spec_float -> spec_float -> spec_float := SFsub prec emax.
Definition mul : spec_float -> spec_float -> spec_float := SFmul prec emax.
Definition div : spec_float -> spec_float -> spec_float := SFdiv prec emax.

(** [a < b], [a > b] and [a >= b]; each is [False] when an operand is a
    NaN. *)
Definition lt (a b : spec_float) : bool := SFltb a b.
Definition gt (a b : spec_float) : bool := SFltb b a.
Definition ge (a b : spec_float) : bool := SFleb b a.

(** [float(z)] for a Python [int]: round to nearest, ties to even; the
    conversion raises [OverflowError] where the rounding would leave the
    finite range. *)
Definition of_int (z : Z) : option spec_float :=
  match binary_normalize prec emax z 0 false with
  | S754_infinity _ => None
  | x => Some x
  end.

Definition zero : spec_float := S754_zero false.
Definition hundred : spec_float := S754_finite false 7036874417766400 (-46).

(** [bool(x)]: every float but the two zeros is truthy. *)
Definition truthy (x : spec_float) : bool :=
  match x with
  | S754_zero _ => false
  | _ => true
  end.

End PyFloat.

(** ** Exceptions and results

    A Python call either returns or raises.  Only subclasses of [Exception]
    are modelled: they are what the [except Exception] clauses of the
    program catch. *)
Inductive exn : Set :=
  | RequestException   (* requests.exceptions.RequestException and subclasses *)
  | KeyError
  | ValueError
  | TypeError
  | AttributeError
  | OverflowError
  | OtherException.

Inductive result (A : Type) : Type :=
  | Ok (a : A)
  | Raise (e : exn).
Arguments Ok {A} a.
Arguments Raise {A} e.

(** Sequencing: the first raise aborts what follows ([x ← r; k]). *)
#[global] Instance result_bind : MBind result := fun A B k r =>
  match r with
  | Ok a => k a
  | Raise e => Raise e
  end.

#[global] Instance result_ret : MRet result := fun A a => Ok a.

(** [try: body  except Exception: handler]. *)
Definition try_except {A : Type} (body : result A) (handler : exn -> A) : A :=
  match body with
  | Ok a => a
  | Raise e => handler e
  end.

(** ** Python values found in a [rate_data] dictionary *)
Inductive value : Type :=
  | VNone
  | VFloat (x : spec_float)
  | VStr (s : string).

#[global] Instance spec_float_eq_dec : EqDecision spec_float.
Proof. solve_decision. Defined.

#[global] Instance value_eq_dec : EqDecision value.
Proof. solve_decision. Defined.

(** [a < b] and [a >= b]: floats compare numerically, strings
    lexicographically, anything else raises [TypeError]. *)
Definition py_lt (a b : value) : result bool :=
  match a, b with
  | VFloat x, VFloat y => Ok (PyFloat.lt x y)
  | VStr s, VStr t => Ok (String.ltb s t)
  | _, _ => Raise TypeError
  end.

Definition py_ge (a b : value) : result bool :=
  match a, b with
  | VFloat x, VFloat y => Ok (PyFloat.ge x y)
  | VStr s, VStr t => Ok (String.leb t s)
  | _, _ => Raise TypeError
  end.

(** [d.get(key)]: [None] when the key is absent, and also when it is bound
    to [None]. *)
Definition dict_get (d : gmap string value) (key : string) : value :=
  default VNone (d !! key).

(** [d.get(key, dflt)]. *)
Definition dict_get_default (d : gmap string value) (key : string)
    (dflt : value) : value :=
  default dflt (d !! key).

Definition is_none (v : value) : bool :=
  match v with
  | VNone => true
  | _ => false
  end.

(** ** Fixed-point formatting: the format specifications [.4f], [+.4f] and
    [+.2f]

    Python renders a float in fixed notation by rounding its exact binary
    value to the requested number of decimals, ties to even. *)
Module Format.

Definition round_half_even (num den : Z) : Z :=
  let q := num / den in
  let r := num mod den in
  match (2 * r ?= den) with
  | Lt => q
  | Eq => if Z.even q then q else q + 1
  | Gt => q + 1
  end.

(** The integer nearest to [m * 2^e * 10^digits]. *)
Definition scaled (digits : nat) (m : positive) (e : Z) : Z :=
  let n := Z.pos m * 10 ^ Z.of_nat digits in
  if (0 <=? e)%Z then n * 2 ^ e else round_half_even n (2 ^ (- e)).

Definition decimal (n : Z) : string :=
  NilZero.string_of_uint (N.to_uint (Z.to_N n)).

Fixpoint zeros (n : nat) : string :=
  match n with
  | O => ""
  | S k => String "0" (zeros k)
  end.

(** [n] written with at least [digits + 1] figures and a point before the
    last [digits] of them. *)
Definition fixed (digits : nat) (n : Z) : string :=
  let s := decimal n in
  let s := zeros (S digits - String.length s) +:+ s in
  let k := (String.length s - digits)%nat in
  match digits with
  | O => s
  | _ => String.substring 0 k s +:+ "." +:+ String.substring k digits s
  end.

Definition sign (plus neg : bool) : string :=
  if neg then "-" else if plus then "+" else "".

(** [format(x, '.{digits}f')], and [format(x, '+.{digits}f')] when [plus]
    is set. *)
Definition format_f (plus : bool) (digits : nat) (x : spec_float) : string :=
  match x with
  | S754_nan => sign plus false +:+ "nan"
  | S754_infinity s => sign plus s +:+ "inf"
  | S754_zero s => sign plus s +:+ fixed digits 0
  | S754_finite s m e => sign plus s +:+ fixed digits (scaled digits m e)
  end.

End Format.

(** [needle in haystack] on strings. *)
Fixpoint contains (needle haystack : string) : bool :=
  String.prefix needle haystack ||
  match haystack with
  | EmptyString => false
  | String _ rest => contains needle rest
  end.

(** ** What the program takes from its environment *)

(** Library functions whose results are only displayed: [repr] of a float
    (what an f-string field without format specification shows),
    [datetime.fromisoformat(s).strftime("%Y-%m-%d %H:%M:%S UTC")] ([None]
    when it raises), and [float(s)] on a string ([None] when it raises
    [ValueError]). *)
Class PythonRuntime : Type := {
  float_repr : spec_float -> string;
  iso_display : string -> option string;
  float_of_str : string -> option spec_float
}.

(** One reading of [datetime.now()]: [strftime("%Y-%m-%d")], [.hour],
    [.isoformat()] and [strftime('%Y%m%d-%H%M%S')].  The reads made while
    one method runs are taken at the same instant. *)
Record clock : Type := {
  today : string;
  hour : Z;
  isoformat : string;
  stamp : string
}.

(** How the SMTP conversation of one message ends: [server.quit()] returned;
    a call up to and including [server.sendmail] raised; or the message was
    handed over and [server.quit()] raised. *)
Inductive smtp_outcome : Set :=
  | Delivered
  | Failed_before_handover
  | Failed_after_handover.

(** A message handed to the mail server. *)
Inductive event : Type :=
  | Email (is_alert : bool) (subject body : string).

(** ** currency/notifications/currency_notifications.py *)

Definition dq : string := String (ascii_of_nat 34) EmptyString.

(** [str(v)], as an f-string field shows a value. *)
Definition py_str `{PythonRuntime} (v : value) : string :=
  match v with
  | VNone => "None"
  | VFloat x => float_repr x
  | VStr s => s
  end.

(** [s.replace('Z', '+00:00')]. *)
Fixpoint replace_Z (s : string) : string :=
  match s with
  | EmptyString => EmptyString
  | String c rest =>
      if Ascii.eqb c "Z" then "+00:00" +:+ replace_Z rest
      else String c (replace_Z rest)
  end.

Section Renderer.
Context `{PythonRuntime}.
Import Format.

Definition _format_alert_email (now : clock)
    (current_rate threshold difference percentage_change : spec_float)
    (formatted_time currency_pair : string) : string :=
  "
        <html>
        <body style=" +:+ dq +:+ "font-family: Arial, sans-serif; line-height: 1.6; color: #333;" +:+ dq +:+ ">
            <div style=" +:+ dq +:+ "max-width: 600px; margin: 0 auto; padding: 20px;" +:+ dq +:+ ">
                <h2 style=" +:+ dq +:+ "color: #e74c3c; text-align: center;" +:+ dq +:+ ">
                    🚨 Currency Exchange Rate Alert
                </h2>
                
                <div style=" +:+ dq +:+ "background-color: #f8f9fa; padding: 20px; border-radius: 8px; margin: 20px 0;" +:+ dq +:+ ">
                    <h3 style=" +:+ dq +:+ "color: #2c3e50; margin-top: 0;" +:+ dq +:+ ">
                        " +:+ currency_pair +:+ " Exchange Rate Alert
                    </h3>
                    
                    <div style=" +:+ dq +:+ "display: flex; justify-content: space-between; margin: 15px 0;" +:+ dq +:+ ">
                        <div style=" +:+ dq +:+ "text-align: center;" +:+ dq +:+ ">
                            <div style=" +:+ dq +:+ "font-size: 24px; font-weight: bold; color: #e74c3c;" +:+ dq +:+ ">
                                " +:+ format_f false 4 current_rate +:+ "
                            </div>
                            <div style=" +:+ dq +:+ "color: #7f8c8d; font-size: 14px;" +:+ dq +:+ ">
                                Current Rate (1 CAD = X RMB)
                            </div>
                        </div>
                        
                        <div style=" +:+ dq +:+ "text-align: center;" +:+ dq +:+ ">
                            <div style=" +:+ dq +:+ "font-size: 24px; font-weight: bold; color: #27ae60;" +:+ dq +:+ ">
                                " +:+ format_f false 4 threshold +:+ "
                            </div>
                            <div style=" +:+ dq +:+ "color: #7f8c8d; font-size: 14px;" +:+ dq +:+ ">
                                Alert Threshold
                            </div>
                        </div>
                    </div>
                    
                    <div style=" +:+ dq +:+ "text-align: center; margin: 20px 0;" +:+ dq +:+ ">
                        <div style=" +:+ dq +:+ "font-size: 18px; font-weight: bold; color: #e74c3c;" +:+ dq +:+ ">
                            Difference: " +:+ format_f true 4 difference +:+ " (" +:+ format_f true 2 percentage_change +:+ "%)
                        </div>
                    </div>
                </div>
                
                <div style=" +:+ dq +:+ "background-color: #fff3cd; border: 1px solid #ffeaa7; padding: 15px; border-radius: 5px; margin: 20px 0;" +:+ dq +:+ ">
                    <h4 style=" +:+ dq +:+ "color: #856404; margin-top: 0;" +:+ dq +:+ ">
                        ⚠️ Alert Details
                    </h4>
                    <p style=" +:+ dq +:+ "margin: 5px 0; color: #856404;" +:+ dq +:+ ">
                        The " +:+ currency_pair +:+ " exchange rate has dropped below your specified threshold of " +:+ format_f false 4 threshold +:+ ".
                    </p>
                    <p style=" +:+ dq +:+ "margin: 5px 0; color: #856404;" +:+ dq +:+ ">
                        Current rate: <strong>" +:+ format_f false 4 current_rate +:+ "</strong> (1 CAD = " +:+ format_f false 4 current_rate +:+ " RMB)
                    </p>
                    <p style=" +:+ dq +:+ "margin: 5px 0; color: #856404;" +:+ dq +:+ ">
                        Alert triggered at: <strong>" +:+ formatted_time +:+ "</strong>
                    </p>
                </div>
                
                <div style=" +:+ dq +:+ "background-color: #d1ecf1; border: 1px solid #bee5eb; padding: 15px; border-radius: 5px; margin: 20px 0;" +:+ dq +:+ ">
                    <h4 style=" +:+ dq +:+ "color: #0c5460; margin-top: 0;" +:+ dq +:+ ">
                        📊 What This Means
                    </h4>
                    <p style=" +:+ dq +:+ "margin: 5px 0; color: #0c5460;" +:+ dq +:+ ">
                        A lower CAD-RMB rate means that 1 Canadian Dollar can buy fewer Chinese Yuan (RMB).
                    </p>
                    <p style=" +:+ dq +:+ "margin: 5px 0; color: #0c5460;" +:+ dq +:+ ">
                        This could be a good time to exchange CAD for RMB if you're planning to make a purchase in China.
                    </p>
                </div>
                
                <div style=" +:+ dq +:+ "text-align: center; margin: 30px 0; padding: 20px; background-color: #f8f9fa; border-radius: 8px;" +:+ dq +:+ ">
                    <p style=" +:+ dq +:+ "color: #6c757d; font-size: 14px; margin: 0;" +:+ dq +:+ ">
                        This alert was generated by your Currency Exchange Rate Monitor
                    </p>
                    <p style=" +:+ dq +:+ "color: #6c757d; font-size: 12px; margin: 5px 0 0 0;" +:+ dq +:+ ">
                        Monitor ID: " +:+ currency_pair +:+ "-" +:+ stamp now +:+ "
                    </p>
                </div>
            </div>
        </body>
        </html>
        ".

Definition _format_summary_email (now : clock)
    (current_rate threshold difference percentage_change : spec_float)
    (formatted_time currency_pair : string) : string :=
  "
        <html>
        <body style=" +:+ dq +:+ "font-family: Arial, sans-serif; line-height: 1.6; color: #333;" +:+ dq +:+ ">
            <div style=" +:+ dq +:+ "max-width: 600px; margin: 0 auto; padding: 20px;" +:+ dq +:+ ">
                <h2 style=" +:+ dq +:+ "color: #27ae60; text-align: center;" +:+ dq +:+ ">
                    📊 Daily Currency Summary
                </h2>
                
                <div style=" +:+ dq +:+ "background-color: #f8f9fa; padding: 20px; border-radius: 8px; margin: 20px 0;" +:+ dq +:+ ">
                    <h3 style=" +:+ dq +:+ "color: #2c3e50; margin-top: 0;" +:+ dq +:+ ">
                        " +:+ currency_pair +:+ " Daily Summary
                    </h3>
                    
                    <div style=" +:+ dq +:+ "display: flex; justify-content: space-between; margin: 15px 0;" +:+ dq +:+ ">
                        <div style=" +:+ dq +:+ "text-align: center;" +:+ dq +:+ ">
                            <div style=" +:+ dq +:+ "font-size: 24px; font-weight: bold; color: #27ae60;" +:+ dq +:+ ">
                                " +:+ format_f false 4 current_rate +:+ "
                            </div>
                            <div style=" +:+ dq +:+ "color: #7f8c8d; font-size: 14px;" +:+ dq +:+ ">
                                Current Rate (1 CAD = X RMB)
                            </div>
                        </div>
                        
                        <div style=" +:+ dq +:+ "text-align: center;" +:+ dq +:+ ">
                            <div style=" +:+ dq +:+ "font-size: 24px; font-weight: bold; color: #6c757d;" +:+ dq +:+ ">
                                " +:+ format_f false 4 threshold +:+ "
                            </div>
                            <div style=" +:+ dq +:+ "color: #7f8c8d; font-size: 14px;" +:+ dq +:+ ">
                                Alert Threshold
                            </div>
                        </div>
                    </div>
                    
                    <div style=" +:+ dq +:+ "text-align: center; margin: 20px 0;" +:+ dq +:+ ">
                        <div style=" +:+ dq +:+ "font-size: 18px; font-weight: bold; color: #27ae60;" +:+ dq +:+ ">
                            Difference: " +:+ format_f true 4 difference +:+ " (" +:+ format_f true 2 percentage_change +:+ "%)
                        </div>
                    </div>
                </div>
                
                <div style=" +:+ dq +:+ "background-color: #d4edda; border: 1px solid #c3e6cb; padding: 15px; border-radius: 5px; margin: 20px 0;" +:+ dq +:+ ">
                    <h4 style=" +:+ dq +:+ "color: #155724; margin-top: 0;" +:+ dq +:+ ">
                        ✅ Status Update
                    </h4>
                    <p style=" +:+ dq +:+ "margin: 5px 0; color: #155724;" +:+ dq +:+ ">
                        The " +:+ currency_pair +:+ " exchange rate is currently <strong>above</strong> your alert threshold.
                    </p>
                    <p style=" +:+ dq +:+ "margin: 5px 0; color: #155724;" +:+ dq +:+ ">
                        Current rate: <strong>" +:+ format_f false 4 current_rate +:+ "</strong> (1 CAD = " +:+ format_f false 4 current_rate +:+ " RMB)
                    </p>
                    <p style=" +:+ dq +:+ "margin: 5px 0; color: #155724;" +:+ dq +:+ ">
                        Summary generated at: <strong>" +:+ formatted_time +:+ "</strong>
                    </p>
                </div>
                
                <div style=" +:+ dq +:+ "background-color: #d1ecf1; border: 1px solid #bee5eb; padding: 15px; border-radius: 5px; margin: 20px 0;" +:+ dq +:+ ">
                    <h4 style=" +:+ dq +:+ "color: #0c5460; margin-top: 0;" +:+ dq +:+ ">
                        📈 Market Analysis
                    </h4>
                    <p style=" +:+ dq +:+ "margin: 5px 0; color: #0c5460;" +:+ dq +:+ ">
                        The Canadian Dollar is performing well against the Chinese Yuan.
                    </p>
                    <p style=" +:+ dq +:+ "margin: 5px 0; color: #0c5460;" +:+ dq +:+ ">
                        No immediate trading opportunities detected. We'll continue monitoring and alert you if the rate drops below " +:+ format_f false 4 threshold +:+ ".
                    </p>
                </div>
                
                <div style=" +:+ dq +:+ "text-align: center; margin: 30px 0; padding: 20px; background-color: #f8f9fa; border-radius: 8px;" +:+ dq +:+ ">
                    <p style=" +:+ dq +:+ "color: #6c757d; font-size: 14px; margin: 0;" +:+ dq +:+ ">
                        Daily summary from your Currency Exchange Rate Monitor
                    </p>
                    <p style=" +:+ dq +:+ "color: #6c757d; font-size: 12px; margin: 5px 0 0 0;" +:+ dq +:+ ">
                        Monitor ID: " +:+ currency_pair +:+ "-" +:+ stamp now +:+ "
                    </p>
                </div>
            </div>
        </body>
        </html>
        ".

(** [difference / threshold * 100 if threshold > 0 else 0]. *)
Definition percentage_change (difference threshold : spec_float) : spec_float :=
  if PyFloat.gt threshold PyFloat.zero
  then PyFloat.mul (PyFloat.div difference threshold) PyFloat.hundred
  else PyFloat.zero.

(** The [try]/[except] around the timestamp: a string that parses is shown
    reformatted, anything else is shown as it is. *)
Definition formatted_time (timestamp : value) : string :=
  match timestamp with
  | VStr s => default s (iso_display (replace_Z s))
  | v => py_str v
  end.

(** The subtraction raises [TypeError] unless both entries are floats; the
    integer default [0] of a missing entry acts as the float zero. *)
Definition _format_email_message (now : clock) (rate_data : gmap string value)
    (is_alert : bool) : result string :=
  let current_rate := dict_get_default rate_data "current_rate" (VFloat PyFloat.zero) in
  let threshold := dict_get_default rate_data "threshold" (VFloat PyFloat.zero) in
  let timestamp := dict_get_default rate_data "timestamp" (VStr (isoformat now)) in
  let currency_pair := dict_get_default rate_data "currency_pair" (VStr "CAD-RMB") in
  match current_rate, threshold with
  | VFloat r, VFloat t =>
      let difference := PyFloat.sub r t in
      let pct := percentage_change difference t in
      if is_alert
      then Ok (_format_alert_email now r t difference pct
                 (formatted_time timestamp) (py_str currency_pair))
      else Ok (_format_summary_email now r t difference pct
                 (formatted_time timestamp) (py_str currency_pair))
  | _, _ => Raise TypeError
  end.

End Renderer.

(** ** common/notifications/base_notifications.py *)

(** The attributes of a notification manager that never change:
    [config.currency_pair] and [notification_config]. *)
Record manager : Type := {
  currency_pair : string;
  notification_config : gmap string string
}.

(** The attributes the manager mutates.  ([sent_notifications] is created
    empty and never used.) *)
Record flags : Type := {
  alert_sent_today : bool;
  last_daily_summary : string
}.

(** The state [__init__] leaves. *)
Definition initial_flags : flags :=
  {| alert_sent_today := false; last_daily_summary := "" |}.

(** [not x] on what [notification_config.get(key)] returns. *)
Definition falsy (x : option string) : bool :=
  match x with
  | None | Some EmptyString => true
  | Some _ => false
  end.

(** The branch of [send_notifications] that a call takes once the rate data
    is known to be complete. *)
Inductive decision : Set :=
  | NoOp
  | SendAlert
  | SendSummary.

Section Notifications.
Context `{PythonRuntime}.
Variable self : manager.

Definition _should_send_alert (st : flags) (current_rate threshold : value)
    : result bool :=
  below ← py_lt current_rate threshold;
  mret (below && negb (alert_sent_today st)).

Definition _get_today_date (now : clock) : string := today now.

Definition _is_time_for_daily_summary (now : clock) : bool :=
  (hour now =? 0)%Z.

Definition _should_send_daily_summary (st : flags) (now : clock)
    (current_rate threshold : value) : result bool :=
  if negb (String.eqb (last_daily_summary st) (_get_today_date now))
  then above ← py_ge current_rate threshold;
       mret (above && _is_time_for_daily_summary now)
  else mret false.

Definition reset_daily_flags (st : flags) (now : clock) : flags :=
  if negb (String.eqb (last_daily_summary st) (_get_today_date now))
  then {| alert_sent_today := false; last_daily_summary := "" |}
  else st.

Definition subject (is_alert : bool) : string :=
  if is_alert
  then "🚨 " +:+ currency_pair self +:+ " Exchange Rate Alert!"
  else "📊 " +:+ currency_pair self +:+ " Daily Summary".

(** The whole method runs under [try]/[except Exception], which turns every
    raise into [False].  The list of recipients only reaches the mail
    server, whose answer is [smtp]. *)
Definition _send_email_notification (now : clock) (smtp : smtp_outcome)
    (rate_data : gmap string value) (is_alert : bool) : bool * list event :=
  let sender_email := notification_config self !! "email" in
  let gmail_password := notification_config self !! "gmail_app_password" in
  if falsy sender_email || falsy gmail_password then (true, [])
  else
    match _format_email_message now rate_data is_alert with
    | Raise _ => (false, [])
    | Ok body =>
        let msg := Email is_alert (subject is_alert) body in
        match smtp with
        | Delivered => (true, [msg])
        | Failed_before_handover => (false, [])
        | Failed_after_handover => (false, [msg])
        end
    end.

(** The body of the [try] of [send_notifications], from the first
    comparison on.  Nothing is sent and nothing is assigned before the last
    call that can raise, so a raise leaves the flags as they were. *)
Definition notify (st : flags) (now : clock) (smtp : smtp_outcome)
    (rate_data : gmap string value) (current_rate threshold : value)
    : result (bool * flags * list event) :=
  should_send_alert ← _should_send_alert st current_rate threshold;
  if should_send_alert : bool then
    let '(alert_sent, out) := _send_email_notification now smtp rate_data true in
    let st' := if alert_sent : bool
               then {| alert_sent_today := true; last_daily_summary := "" |}
               else st in
    mret (alert_sent, st', out)
  else
    should_send_summary ← _should_send_daily_summary st now current_rate threshold;
    if should_send_summary : bool then
      let '(summary_sent, out) := _send_email_notification now smtp rate_data false in
      let st' := if summary_sent : bool
                 then {| alert_sent_today := alert_sent_today st;
                         last_daily_summary := _get_today_date now |}
                 else st in
      mret (summary_sent, st', out)
    else mret (true, st, []).

(** [rate_data] is [None] for the Python value [None]. *)
Definition send_notifications (st : flags) (now : clock) (smtp : smtp_outcome)
    (rate_data : option (gmap string value)) : bool * flags * list event :=
  match rate_data with
  | None => (true, st, [])
  | Some rd =>
      if decide (rd = ∅) then (true, st, [])
      else
        let current_rate := dict_get rd "current_rate" in
        let threshold := dict_get rd "threshold" in
        if is_none current_rate || is_none threshold then (false, st, [])
        else try_except (notify st now smtp rd current_rate threshold)
                        (fun _ => (false, st, []))
  end.

(** The decision as the two predicates make it, in the order
    [send_notifications] consults them. *)
Definition evaluate (st : flags) (now : clock) (current_rate threshold : value)
    : result decision :=
  should_send_alert ← _should_send_alert st current_rate threshold;
  if should_send_alert : bool then mret SendAlert
  else
    should_send_summary ← _should_send_daily_summary st now current_rate threshold;
    mret (if should_send_summary : bool then SendSummary else NoOp).

End Notifications.

(** ** What the HTTP request can produce *)

(** A decoded JSON document, as [response.json()] returns it. *)
#[warnings="-register-all"]
Inductive json : Type :=
  | JNull
  | JBool (b : bool)
  | JInt (z : Z)
  | JFloat (x : spec_float)
  | JStr (s : string)
  | JArr (items : list json)
  | JObj (members : list (string * json)).

(** [d.get(key)] on a decoded object; of a repeated member the decoder keeps
    the last. *)
Fixpoint obj_get (members : list (string * json)) (key : string) : option json :=
  match members with
  | [] => None
  | (k, v) :: rest =>
      match obj_get rest key with
      | Some v' => Some v'
      | None => if String.eqb k key then Some v else None
      end
  end.

(** The stage at which one request ends: [requests.get] raised,
    [response.raise_for_status()] raised its [HTTPError] (a
    [RequestException]), [response.json()] raised, or a document was
    decoded. *)
Inductive http_outcome : Type :=
  | Get_raised (e : exn)
  | Status_raised
  | Json_raised (e : exn)
  | Body (data : json).

(** The lines the monitor writes to its logger. *)
Inductive log_line : Type :=
  | Could_not_find_rate (target : string)
  | Error_extracting_rate (e : exn)
  | Api_request_failed
  | Error_fetching_rate (e : exn)
  | Attempt_failed_retrying (attempt wait_time : Z)
  | Attempt_failed (attempt : Z) (e : exn)
  | Failed_after (max_attempts : Z).

(** What a monitor does besides returning: calls of [get_current_rate],
    sleeps and log lines. *)
Inductive effect : Type :=
  | Fetch
  | Sleep (seconds : Z)
  | Log (line : log_line).

(** ** currency/monitor/currency_monitor.py *)

Section Extraction.
Context `{PythonRuntime}.
Variable target_currency : string.

(** [float(v)] for a decoded value other than [None]. *)
Definition py_float (v : json) : result spec_float :=
  match v with
  | JFloat x => Ok x
  | JInt z =>
      match PyFloat.of_int z with
      | Some x => Ok x
      | None => Raise OverflowError
      end
  | JBool b => Ok (if b then S754_finite false 4503599627370496 (-52)
                   else PyFloat.zero)
  | JStr s =>
      match float_of_str s with
      | Some x => Ok x
      | None => Raise ValueError
      end
  | JNull | JArr _ | JObj _ => Raise TypeError
  end.

(** [v.get(...)] exists on dictionaries only. *)
Definition as_dict (v : json) : result (list (string * json)) :=
  match v with
  | JObj members => Ok members
  | _ => Raise AttributeError
  end.

(** The body of the [try]. *)
Definition extract_rate (data : json)
    : result (option spec_float) * list log_line :=
  match as_dict data with
  | Raise e => (Raise e, [])
  | Ok members =>
      match as_dict (default (JObj []) (obj_get members "rates")) with
      | Raise e => (Raise e, [])
      | Ok rates =>
          match obj_get rates target_currency with
          | None | Some JNull => (Ok None, [Could_not_find_rate target_currency])
          | Some cny_rate =>
              match py_float cny_rate with
              | Ok x => (Ok (Some x), [])
              | Raise e => (Raise e, [])
              end
          end
      end
  end.

(** [except (KeyError, ValueError, TypeError)]: any other exception goes
    on to the caller. *)
Definition _extract_rate_from_response (data : json)
    : result (option spec_float) * list log_line :=
  match extract_rate data with
  | (Raise KeyError, logs) => (Ok None, logs ++ [Error_extracting_rate KeyError])
  | (Raise ValueError, logs) => (Ok None, logs ++ [Error_extracting_rate ValueError])
  | (Raise TypeError, logs) => (Ok None, logs ++ [Error_extracting_rate TypeError])
  | other => other
  end.

(** ** common/monitor/base_monitor.py *)

(** The body of the [try] of [get_current_rate]. *)
Definition request_rate (o : http_outcome)
    : result (option spec_float) * list log_line :=
  match o with
  | Get_raised e => (Raise e, [])
  | Status_raised => (Raise RequestException, [])
  | Json_raised e => (Raise e, [])
  | Body data => _extract_rate_from_response data
  end.

(** The line of the clause that catches [e]:
    [except requests.exceptions.RequestException] comes first, then
    [except Exception]. *)
Definition handler_line (e : exn) : log_line :=
  match e with
  | RequestException => Api_request_failed
  | _ => Error_fetching_rate e
  end.

Definition get_current_rate (o : http_outcome)
    : option spec_float * list log_line :=
  match request_rate o with
  | (Ok rate, logs) => (rate, logs)
  | (Raise e, logs) => (None, logs ++ [handler_line e])
  end.

End Extraction.

Section Retry.
(** [fetch i] is what the call of [self.get_current_rate()] in the
    iteration with index [i] does. *)
Variable fetch : nat -> result (option spec_float).

(** The pause after a failed attempt: only when another attempt follows. *)
Definition backoff (max_attempts : Z) (attempt : nat) : list effect :=
  if (Z.of_nat attempt <? max_attempts - 1)%Z
  then [Sleep (2 ^ Z.of_nat attempt)]
  else [].

(** The iterations [attempt, attempt + 1, ...] of
    [for attempt in range(max_attempts)], [remaining] of them, and what
    follows the loop. *)
Fixpoint attempts (max_attempts : Z) (remaining attempt : nat)
    : option spec_float * list effect :=
  match remaining with
  | O => (None, [Log (Failed_after max_attempts)])
  | S k =>
      match fetch attempt with
      | Ok (Some rate) => (Some rate, [Fetch])
      | Ok None =>
          let '(r, tr) := attempts max_attempts k (S attempt) in
          (r, Fetch ::
              (if (Z.of_nat attempt <? max_attempts - 1)%Z
               then [Log (Attempt_failed_retrying (Z.of_nat attempt + 1)
                                                  (2 ^ Z.of_nat attempt))]
               else [])
              ++ backoff max_attempts attempt ++ tr)
      | Raise e =>
          let '(r, tr) := attempts max_attempts k (S attempt) in
          (r, Fetch :: Log (Attempt_failed (Z.of_nat attempt + 1) e)
                :: backoff max_attempts attempt ++ tr)
      end
  end.

(** [configured] is [monitoring_config["max_attempts"]]. *)
Definition get_rate_with_retry (configured : Z) (max_attempts : option Z)
    : option spec_float * list effect :=
  let max_attempts := default configured max_attempts in
  attempts max_attempts (Z.to_nat max_attempts) O.

End Retry.

(** The calls and the sleeps of a run, in order. *)
Definition is_action (e : effect) : bool :=
  match e with
  | Log _ => false
  | _ => true
  end.

Definition actions (tr : list effect) : list effect := List.filter is_action tr.

Definition calls (tr : list effect) : nat :=
  length (List.filter (fun e => match e with Fetch => true | _ => false end) tr).

Definition sleeps (tr : list effect) : list Z :=
  omap (fun e => match e with Sleep s => Some s | _ => None end) tr.

(** An attempt fails when it returns [None] or raises. *)
Definition failed (r : result (option spec_float)) : bool :=
  match r with
  | Ok (Some _) => false
  | _ => true
  end.

(** [k] failed attempts, each followed by its pause of [2^i] seconds, and
    one more attempt with nothing after it. *)
Definition schedule (k : nat) : list effect :=
  flat_map (fun i => [Fetch; Sleep (2 ^ Z.of_nat i)]) (seq 0 k) ++ [Fetch].

(** ** currency_bot.py *)

(** What [CADRMBCurrencyBot] holds: its notification manager, the target
    currency of its monitor and [monitoring_config["threshold"]]. *)
Record bot : Type := {
  notifications : manager;
  target_currency : string;
  threshold : spec_float
}.

(** What one pass of the monitoring loop meets: the clock, the answer to its
    request and the fate of the message it may send. *)
Record cycle : Type := {
  cycle_now : clock;
  cycle_response : http_outcome;
  cycle_smtp : smtp_outcome
}.

Section Bot.
Context `{PythonRuntime}.
Variable self : bot.

Definition rate_data_of (now : clock) (current_rate : spec_float)
    : gmap string value :=
  <["current_rate" := VFloat current_rate]>
    (<["threshold" := VFloat (threshold self)]>
      (<["timestamp" := VStr (isoformat now)]>
        (<["currency_pair" := VStr "CAD-RMB"]> ∅))).

(** One pass of the [while True] loop of [run_continuous_monitoring], up
    to its sleep: the flags it leaves and the messages it hands over. *)
Definition monitoring_cycle (st : flags) (c : cycle) : flags * list event :=
  let st := reset_daily_flags st (cycle_now c) in
  match fst (get_current_rate (target_currency self) (cycle_response c)) with
  | Some current_rate =>
      if PyFloat.truthy current_rate then
        let '(_, st', out) :=
          send_notifications (notifications self) st (cycle_now c) (cycle_smtp c)
            (Some (rate_data_of (cycle_now c) current_rate)) in
        (st', out)
      else (st, [])
  | None => (st, [])
  end.

(** The first passes of the loop; every message is recorded with the date
    of the pass that sent it. *)
Fixpoint run_continuous_monitoring (st : flags) (cycles : list cycle)
    : flags * list (string * event) :=
  match cycles with
  | [] => (st, [])
  | c :: rest =>
      let '(st', out) := monitoring_cycle st c in
      let '(st'', later) := run_continuous_monitoring st' rest in
      (st'', map (fun e => (today (cycle_now c), e)) out ++ later)
  end.

End Bot.

(** The number of alerts ([is_alert]) or of summaries sent on [day]. *)
Definition sent_on (day : string) (kind : bool) (sent : list (string * event)) : nat :=
  length (List.filter
            (fun '(d, Email is_alert _ _) => String.eqb d day && Bool.eqb is_alert kind)
            sent).

(** ** Worked data

    The sample of [send_test_notification] and of the test suite: the floats
    nearest to 5.02 and 5.05, and the moment the sample names. *)
Definition rate_5_02 : spec_float := S754_finite false 5652017532349972 (-50).
Definition rate_5_05 : spec_float := S754_finite false 5685794529555251 (-50).

Definition test_rate_data (pair : string) : gmap string value :=
  <["current_rate" := VFloat rate_5_02]>
    (<["threshold" := VFloat rate_5_05]>
      (<["timestamp" := VStr "2025-01-27T10:00:00"]>
        (<["currency_pair" := VStr pair]> ∅))).

(** The library functions on what the worked examples pass to them: the
    timestamp of the sample is shown as [datetime] shows it, and no example
    displays a float without a format specification or converts a string to
    a float. *)
Definition sample_runtime : PythonRuntime := {|
  float_repr := fun _ => "";
  iso_display := fun s =>
    if String.eqb s "2025-01-27T10:00:00" then Some "2025-01-27 10:00:00 UTC"
    else None;
  float_of_str := fun _ => None
|}.

Definition morning : clock := {|
  today := "2025-01-27";
  hour := 10;
  isoformat := "2025-01-27T10:00:00.000000";
  stamp := "20250127-100000"
|}.

Definition noon : clock := {|
  today := "2025-01-27";
  hour := 12;
  isoformat := "2025-01-27T12:00:00.000000";
  stamp := "20250127-120000"
|}.

Definition midnight : clock := {|
  today := "2025-01-27";
  hour := 0;
  isoformat := "2025-01-27T00:05:00.000000";
  stamp := "20250127-000500"
|}.

(** A manager with credentials, and one without. *)
Definition configured_manager : manager := {|
  currency_pair := "CAD-RMB";
  notification_config :=
    <["email" := "bot@example.com"]>
      (<["gmail_app_password" := "app-password"]>
        (<["recipient_emails" := "me@example.com"]> ∅))
|}.

Definition unconfigured_manager : manager := {|
  currency_pair := "CAD-RMB";
  notification_config :=
    <["email" := ""]>
      (<["gmail_app_password" := ""]> (<["recipient_emails" := ""]> ∅))
|}.

(** A fetcher that fails twice and then succeeds. *)
Definition third_time_lucky (v : spec_float) (i : nat)
    : result (option spec_float) :=
  match i with
  | 0%nat => Ok None
  | 1%nat => Raise OtherException
  | _ => Ok (Some v)
  end.

(** A response of the rate API with a rate of 5.02 yuan, and one without
    the yuan. *)
Definition response_5_02 : http_outcome :=
  Body (JObj [("base", JStr "CAD"); ("date", JStr "2025-01-27");
              ("rates", JObj [("USD", JFloat rate_5_05);
                              ("CNY", JFloat rate_5_02)])]).

Definition members_without_yuan : list (string * json) :=
  [("base", JStr "CAD"); ("date", JStr "2025-01-27");
   ("rates", JObj [("USD", JFloat rate_5_05)])].

(** The bot with its defaults: the yuan against a threshold of 5.05. *)
Definition sample_bot : bot := {|
  notifications := configured_manager;
  target_currency := "CNY";
  threshold := rate_5_05
|}.

(** The percentage as the specification words it:
    [(current_rate - threshold) / threshold * 100], and 0 when the threshold
    is 0. *)
Definition spec_percentage_change (difference threshold : spec_float)
    : spec_float :=
  if SFeqb threshold PyFloat.zero then PyFloat.zero
  else PyFloat.mul (PyFloat.div difference threshold) PyFloat.hundred.

(** The sample with its threshold set to -1.0. *)
Definition minus_one : spec_float := S754_finite true 4503599627370496 (-52).

Definition negative_threshold_data : gmap string value :=
  <["threshold" := VFloat minus_one]> (test_rate_data "CAD-RMB").

(** ** common/config/base_config.py and currency/config/currency_config.py *)

(** [os.getenv(key, dflt)] in the environment [env]. *)
Definition getenv (env : gmap string string) (key dflt : string) : string :=
  default dflt (env !! key).

Module CurrencyConfig.

Definition pair : string := "CAD-RMB".
Definition api_url : string := "https://api.exchangerate-api.com/v4/latest/CAD".

Definition get_api_config (env : gmap string string) : gmap string string :=
  <["api_url" := api_url]>
    (<["api_key" := getenv env "EXCHANGE_API_KEY" ""]>
      (<["base_currency" := "CAD"]> (<["target_currency" := "CNY"]> ∅))).

Definition get_notification_config (env : gmap string string)
    : gmap string string :=
  <["email" := getenv env "CURRENCY_NOTIFICATION_EMAIL" ""]>
    (<["gmail_app_password" := getenv env "CURRENCY_GMAIL_APP_PASSWORD" ""]>
      (<["recipient_emails" := getenv env "CURRENCY_RECIPIENT_EMAILS" ""]> ∅)).

(** [BaseConfig.validate_config] on this configuration. *)
Definition validate_config (env : gmap string string) : bool :=
  let api_config := get_api_config env in
  let notif_config := get_notification_config env in
  if falsy (api_config !! "api_url") then false
  else if falsy (notif_config !! "email") then false
  else if negb (falsy (notif_config !! "email"))
          && falsy (notif_config !! "gmail_app_password") then false
  else true.

(** What [CurrencyNotificationManager(config)] keeps of the configuration. *)
Definition notification_manager (env : gmap string string) : manager :=
  {| currency_pair := pair;
     notification_config := get_notification_config env |}.

End CurrencyConfig.

(** ** The recipients of a message
    ([BaseNotificationManager._send_email_notification], after the check of
    the credentials) *)

(** The white space [str.strip()] removes, in UTF-8: the control characters
    U+0009 to U+000D and U+001C to U+001F, the space, U+0085, U+00A0, U+1680,
    U+2000 to U+200A, U+2028, U+2029, U+202F, U+205F and U+3000. *)
Definition is_ascii_space (c : ascii) : bool :=
  let n := N_of_ascii c in
  ((9 <=? n)%N && (n <=? 13)%N) || ((28 <=? n)%N && (n <=? 32)%N).

Definition byte_is (c : ascii) (n : N) : bool := (N_of_ascii c =? n)%N.

(** The third byte of the white space that starts with E2 80. *)
Definition is_e2_80_space (c : ascii) : bool :=
  let n := N_of_ascii c in
  ((128 <=? n)%N && (n <=? 138)%N) || (n =? 168)%N || (n =? 169)%N || (n =? 175)%N.

Fixpoint lstrip (s : string) : string :=
  match s with
  | EmptyString => EmptyString
  | String c rest =>
      if is_ascii_space c then lstrip rest
      else
        match rest with
        | String d rest' =>
            if byte_is c 194 && (byte_is d 133 || byte_is d 160) then lstrip rest'
            else
              match rest' with
              | String e rest'' =>
                  if (byte_is c 225 && byte_is d 154 && byte_is e 128)
                     || (byte_is c 226 && byte_is d 128 && is_e2_80_space e)
                     || (byte_is c 226 && byte_is d 129 && byte_is e 159)
                     || (byte_is c 227 && byte_is d 128 && byte_is e 128)
                  then lstrip rest''
                  else s
              | EmptyString => s
              end
        | EmptyString => s
        end
  end.

(** The same on a reversed string: the bytes of a character come last byte
    first. *)
Fixpoint lstrip_reversed (s : string) : string :=
  match s with
  | EmptyString => EmptyString
  | String e rest =>
      if is_ascii_space e then lstrip_reversed rest
      else
        match rest with
        | String d rest' =>
            if byte_is d 194 && (byte_is e 133 || byte_is e 160)
            then lstrip_reversed rest'
            else
              match rest' with
              | String c rest'' =>
                  if (byte_is c 225 && byte_is d 154 && byte_is e 128)
                     || (byte_is c 226 && byte_is d 128 && is_e2_80_space e)
                     || (byte_is c 226 && byte_is d 129 && byte_is e 159)
                     || (byte_is c 227 && byte_is d 128 && byte_is e 128)
                  then lstrip_reversed rest''
                  else s
              | EmptyString => s
              end
        | EmptyString => s
        end
  end.

Definition rstrip (s : string) : string :=
  String.rev (lstrip_reversed (String.rev s)).

(** [s.strip()]. *)
Definition strip (s : string) : string := lstrip (rstrip s).

(** [s.split(",")]. *)
Fixpoint split_comma (s : string) : list string :=
  match s with
  | EmptyString => [EmptyString]
  | String c rest =>
      if Ascii.eqb c "," then EmptyString :: split_comma rest
      else
        match split_comma rest with
        | head :: tail => String c head :: tail
        | [] => [String c EmptyString]
        end
  end.

Definition nonempty (s : string) : bool :=
  match s with
  | EmptyString => false
  | String _ _ => true
  end.

(** [", ".join(parts)]. *)
Fixpoint join_comma_space (parts : list string) : string :=
  match parts with
  | [] => ""
  | [p] => p
  | p :: rest => p +:+ ", " +:+ join_comma_space rest
  end.

(** [recipients], for the sender address that passed the check of the
    credentials.  The configuration maps strings to strings, so the branch
    for a value that is not a string is never taken. *)
Definition recipients (self : manager) (sender_email : string) : list string :=
  let recipient_emails :=
    default sender_email (notification_config self !! "recipient_emails") in
  if contains "," recipient_emails
  then List.filter nonempty (map strip (split_comma recipient_emails))
  else [strip recipient_emails].

(** ** [BaseNotificationManager.send_test_notification] *)

Definition send_test_notification `{PythonRuntime} (self : manager) (st : flags)
    (now : clock) (smtp : smtp_outcome) : bool * flags * list event :=
  send_notifications self st now smtp (Some (test_rate_data (currency_pair self))).

(** ** [CADRMBCurrencyBot.run_single_check] *)

(** The flags it leaves and the messages it hands over; the result of
    [send_notifications] is not looked at. *)
Definition run_single_check `{PythonRuntime} (self : bot) (st : flags)
    (now : clock) (response : http_outcome) (smtp : smtp_outcome)
    : flags * list event :=
  match fst (get_current_rate (target_currency self) response) with
  | Some current_rate =>
      if PyFloat.truthy current_rate then
        if PyFloat.lt current_rate (threshold self) then
          let '(_, st', out) :=
            send_notifications (notifications self) st now smtp
              (Some (rate_data_of self now current_rate)) in
          (st', out)
        else (st, [])
      else (st, [])
  | None => (st, [])
  end.

(** ** [CurrencyMonitor.get_rate_info] *)

(** The dictionary it returns; [None] is the decoded [null]. *)
Record rate_info : Type := {
  info_base_currency : json;
  info_date : json;
  info_rates : json;
  info_target_rate : option spec_float
}.

(** Its log: the lines of the extraction, and its own line for what its
    [except Exception] catches. *)
Inductive info_line : Type :=
  | Monitor_line (line : log_line)
  | Error_getting_rate_info (e : exn).

Section RateInfo.
Context `{PythonRuntime}.
Variable base_currency target_currency : string.

(** The body of the [try], once a document is decoded. *)
Definition rate_info_of (data : json)
    : result rate_info * list log_line :=
  match as_dict data with
  | Raise e => (Raise e, [])
  | Ok members =>
      match _extract_rate_from_response target_currency data with
      | (Raise e, logs) => (Raise e, logs)
      | (Ok target_rate, logs) =>
          (Ok {| info_base_currency :=
                   default (JStr base_currency) (obj_get members "base");
                 info_date := default JNull (obj_get members "date");
                 info_rates := default (JObj []) (obj_get members "rates");
                 info_target_rate := target_rate |}, logs)
      end
  end.

Definition get_rate_info (o : http_outcome) : option rate_info * list info_line :=
  let '(r, logs) :=
    match o with
    | Get_raised e => (Raise e, [])
    | Status_raised => (Raise RequestException, [])
    | Json_raised e => (Raise e, [])
    | Body data => rate_info_of data
    end in
  match r with
  | Ok info => (Some info, map Monitor_line logs)
  | Raise e => (None, map Monitor_line logs ++ [Error_getting_rate_info e])
  end.

End RateInfo.

(** The seconds a run spends sleeping. *)
Definition total_sleep (tr : list effect) : Z := fold_right Z.add 0 (sleeps tr).

(** A pass of the monitoring loop on [day] that meets no rate below the
    threshold and no mail server that fails after taking the message. *)
Definition calm_cycle `{PythonRuntime} (self : bot) (day : string) (c : cycle)
    : Prop :=
  today (cycle_now c) = day
  /\ cycle_smtp c <> Failed_after_handover
  /\ forall r,
       fst (get_current_rate (target_currency self) (cycle_response c)) = Some r ->
       PyFloat.lt r (threshold self) = false.

(** An answer of the rate API with the rate at the threshold, and one with a
    rate of zero. *)
Definition response_5_05 : http_outcome :=
  Body (JObj [("base", JStr "CAD"); ("rates", JObj [("CNY", JFloat rate_5_05)])]).

Definition response_zero : http_outcome :=
  Body (JObj [("base", JStr "CAD"); ("rates", JObj [("CNY", JInt 0)])]).

(** The two failure results the specification names for the fetcher. *)
Inductive failure : Set :=
  | ExtractionError
  | FetchError.

(** An answer of the rate API whose yuan entry is not a number. *)
Definition members_with_bad_yuan : list (string * json) :=
  [("base", JStr "CAD"); ("date", JStr "2025-01-27");
   ("rates", JObj [("USD", JFloat rate_5_05); ("CNY", JArr [])])].

(** * Properties *)

(** ** Comparisons of floats *)

Lemma SFcompare_antisym (x y : spec_float) :
  SFcompare y x = option_map CompOpp (SFcompare x y).
Proof.
  destruct x as [sx|sx| |sx mx ex], y as [sy|sy| |sy my ey]; simpl;
    try reflexivity;
    try (destruct sx; reflexivity);
    try (destruct sy; reflexivity);
    try (destruct sx, sy; reflexivity).
  destruct sx, sy; try reflexivity;
    rewrite (Z.compare_antisym ey ex);
    destruct (ey ?= ex)%Z; simpl; try reflexivity;
    change (Pos.compare_cont Eq my mx) with (my ?= mx)%positive;
    change (Pos.compare_cont Eq mx my) with (mx ?= my)%positive;
    rewrite (Pos.compare_antisym my mx);
    destruct (my ?= mx)%positive; reflexivity.
Qed.

Lemma lt_not_ge (x y : spec_float) :
  PyFloat.lt x y = true -> PyFloat.ge x y = false.
Proof.
  unfold PyFloat.lt, PyFloat.ge, SFltb, SFleb.
  rewrite (SFcompare_antisym x y).
  destruct (SFcompare x y) as [[]|]; simpl; congruence.
Qed.

Lemma ge_not_lt (x y : spec_float) :
  PyFloat.ge x y = true -> PyFloat.lt x y = false.
Proof.
  intros Hge. destruct (PyFloat.lt x y) eqn:Hlt; [|reflexivity].
  apply lt_not_ge in Hlt. congruence.
Qed.

(** ** The decision and what [send_notifications] does with it *)

Section NotificationFacts.
Context `{PythonRuntime}.
Variable self : manager.

Lemma dict_get_present (rd : gmap string value) (key : string) (v : value) :
  rd !! key = Some v -> dict_get rd key = v.
Proof. unfold dict_get. intros ->. reflexivity. Qed.

Lemma present_nonempty (rd : gmap string value) (key : string) (v : value) :
  rd !! key = Some v -> rd ≠ ∅.
Proof. intros Hk ->. rewrite lookup_empty in Hk. discriminate. Qed.

(** With both entries present, [send_notifications] is its [try] body
    under the handler. *)
Lemma send_notifications_complete (st : flags) (now : clock)
    (smtp : smtp_outcome) (rd : gmap string value) (cr th : value) :
  rd !! "current_rate" = Some cr -> rd !! "threshold" = Some th ->
  is_none cr = false -> is_none th = false ->
  send_notifications self st now smtp (Some rd)
  = try_except (notify self st now smtp rd cr th) (fun _ => (false, st, [])).
Proof.
  intros Hcr Hth Ncr Nth. unfold send_notifications.
  destruct (decide (rd = ∅)) as [->|_].
  - rewrite lookup_empty in Hcr. discriminate.
  - rewrite (dict_get_present _ _ _ Hcr), (dict_get_present _ _ _ Hth).
    rewrite Ncr, Nth. reflexivity.
Qed.

Lemma notify_alert (st : flags) (now : clock) (smtp : smtp_outcome)
    (rd : gmap string value) (cr th : value) :
  evaluate st now cr th = Ok SendAlert ->
  notify self st now smtp rd cr th
  = Ok (fst (_send_email_notification self now smtp rd true),
        (if fst (_send_email_notification self now smtp rd true)
         then {| alert_sent_today := true; last_daily_summary := "" |}
         else st),
        snd (_send_email_notification self now smtp rd true)).
Proof.
  unfold evaluate, notify.
  destruct (_should_send_alert st cr th) as [[]|e]; simpl.
  - intros _. destruct (_send_email_notification self now smtp rd true).
    reflexivity.
  - destruct (_should_send_daily_summary st now cr th) as [[]|e];
      simpl; discriminate.
  - discriminate.
Qed.

Lemma notify_summary (st : flags) (now : clock) (smtp : smtp_outcome)
    (rd : gmap string value) (cr th : value) :
  evaluate st now cr th = Ok SendSummary ->
  notify self st now smtp rd cr th
  = Ok (fst (_send_email_notification self now smtp rd false),
        (if fst (_send_email_notification self now smtp rd false)
         then {| alert_sent_today := alert_sent_today st;
                 last_daily_summary := today now |}
         else st),
        snd (_send_email_notification self now smtp rd false)).
Proof.
  unfold evaluate, notify.
  destruct (_should_send_alert st cr th) as [[]|e]; simpl; try discriminate.
  destruct (_should_send_daily_summary st now cr th) as [[]|e];
    simpl; try discriminate.
  intros _. destruct (_send_email_notification self now smtp rd false).
  reflexivity.
Qed.

Lemma notify_noop (st : flags) (now : clock) (smtp : smtp_outcome)
    (rd : gmap string value) (cr th : value) :
  evaluate st now cr th = Ok NoOp ->
  notify self st now smtp rd cr th = Ok (true, st, []).
Proof.
  unfold evaluate, notify.
  destruct (_should_send_alert st cr th) as [[]|e]; simpl; try discriminate.
  destruct (_should_send_daily_summary st now cr th) as [[]|e];
    simpl; try discriminate.
  reflexivity.
Qed.

(** The decision on two floats, spelled out. *)
Lemma evaluate_floats (st : flags) (now : clock) (R T : spec_float) :
  evaluate st now (VFloat R) (VFloat T)
  = Ok (if PyFloat.lt R T && negb (alert_sent_today st) then SendAlert
        else if negb (String.eqb (last_daily_summary st) (today now))
                && (PyFloat.ge R T && (hour now =? 0)%Z)
             then SendSummary else NoOp).
Proof.
  unfold evaluate, _should_send_alert, _should_send_daily_summary,
    _get_today_date, _is_time_for_daily_summary. simpl.
  destruct (PyFloat.lt R T && negb (alert_sent_today st)); simpl; [reflexivity|].
  destruct (negb (String.eqb (last_daily_summary st) (today now))); simpl;
    reflexivity.
Qed.

End NotificationFacts.

(** ** The notification decision engine *)

(** C8. Resetting the daily flags twice on the same day leaves what the
    first reset left, and a reset clears both flags exactly when
    [last_daily_summary] is not today's date (otherwise it changes
    nothing). *)
Theorem reset_daily_flags_idempotent (st : flags) (now again : clock) :
  today again = today now ->
  reset_daily_flags (reset_daily_flags st now) again = reset_daily_flags st now
  /\ reset_daily_flags st now
     = (if decide (last_daily_summary st = today now) then st
        else {| alert_sent_today := false; last_daily_summary := "" |}).
Proof.
  intros Hday. unfold reset_daily_flags, _get_today_date. rewrite Hday.
  destruct (String.eqb_spec (last_daily_summary st) (today now)) as [Heq|Hne];
    simpl.
  - rewrite Heq, String.eqb_refl. simpl.
    rewrite decide_True by reflexivity. split; reflexivity.
  - rewrite decide_False by assumption.
    split; [|reflexivity].
    destruct (today now); reflexivity.
Qed.

Lemma reset_daily_flags_idempotent_witness :
  reset_daily_flags (reset_daily_flags initial_flags morning) noon
  = reset_daily_flags initial_flags morning
  /\ reset_daily_flags initial_flags morning
     = (if decide (last_daily_summary initial_flags = today morning)
        then initial_flags
        else {| alert_sent_today := false; last_daily_summary := "" |}).
Proof. apply (reset_daily_flags_idempotent initial_flags morning noon). reflexivity. Defined.

(** C2. With a threshold [T > 0], a rate [R < T] and no alert sent yet, a
    call of [send_notifications] whose send succeeds decides [SendAlert],
    sets [alert_sent_today] and clears [last_daily_summary]; a second call
    later the same day with any rate [R' < T] decides [NoOp]: it sends
    nothing and leaves the flags as they are. *)
Theorem first_alert_then_silence `{PythonRuntime} (self : manager) (st : flags)
    (now later : clock) (smtp smtp' : smtp_outcome)
    (rd rd' : gmap string value) (T R R' : spec_float) :
  PyFloat.gt T PyFloat.zero = true ->
  PyFloat.lt R T = true ->
  PyFloat.lt R' T = true ->
  alert_sent_today st = false ->
  rd !! "current_rate" = Some (VFloat R) -> rd !! "threshold" = Some (VFloat T) ->
  rd' !! "current_rate" = Some (VFloat R') -> rd' !! "threshold" = Some (VFloat T) ->
  today later = today now ->
  fst (_send_email_notification self now smtp rd true) = true ->
  evaluate st now (VFloat R) (VFloat T) = Ok SendAlert
  /\ send_notifications self st now smtp (Some rd)
     = (true, {| alert_sent_today := true; last_daily_summary := "" |},
        snd (_send_email_notification self now smtp rd true))
  /\ evaluate {| alert_sent_today := true; last_daily_summary := "" |} later
       (VFloat R') (VFloat T) = Ok NoOp
  /\ send_notifications self
       {| alert_sent_today := true; last_daily_summary := "" |} later smtp'
       (Some rd')
     = (true, {| alert_sent_today := true; last_daily_summary := "" |}, []).
Proof.
  intros _ HR HR' Hfresh Hcr Hth Hcr' Hth' _ Hsent.
  assert (E1 : evaluate st now (VFloat R) (VFloat T) = Ok SendAlert).
  { rewrite evaluate_floats, HR, Hfresh. reflexivity. }
  assert (E2 : evaluate {| alert_sent_today := true; last_daily_summary := "" |}
                 later (VFloat R') (VFloat T) = Ok NoOp).
  { rewrite evaluate_floats, (lt_not_ge _ _ HR'), HR'. simpl.
    rewrite andb_false_r. reflexivity. }
  repeat split; try assumption.
  - rewrite (send_notifications_complete self st now smtp rd _ _ Hcr Hth)
      by reflexivity.
    rewrite (notify_alert self _ _ _ _ _ _ E1), Hsent. reflexivity.
  - rewrite (send_notifications_complete self _ later smtp' rd' _ _ Hcr' Hth')
      by reflexivity.
    rewrite (notify_noop self _ _ _ _ _ _ E2). reflexivity.
Qed.

Lemma first_alert_then_silence_witness :
  evaluate initial_flags morning (VFloat rate_5_02) (VFloat rate_5_05)
  = Ok SendAlert
  /\ @send_notifications sample_runtime configured_manager initial_flags morning
       Delivered (Some (test_rate_data "CAD-RMB"))
     = (true, {| alert_sent_today := true; last_daily_summary := "" |},
        snd (@_send_email_notification sample_runtime configured_manager morning
               Delivered (test_rate_data "CAD-RMB") true))
  /\ evaluate {| alert_sent_today := true; last_daily_summary := "" |} noon
       (VFloat rate_5_02) (VFloat rate_5_05) = Ok NoOp
  /\ @send_notifications sample_runtime configured_manager
       {| alert_sent_today := true; last_daily_summary := "" |} noon
       Failed_before_handover (Some (test_rate_data "CAD-RMB"))
     = (true, {| alert_sent_today := true; last_daily_summary := "" |}, []).
Proof.
  apply (@first_alert_then_silence sample_runtime configured_manager
           initial_flags morning noon Delivered Failed_before_handover
           (test_rate_data "CAD-RMB") (test_rate_data "CAD-RMB")
           rate_5_05 rate_5_02 rate_5_02);
    vm_compute; reflexivity.
Defined.

(** C3. With a rate [R >= T] the decision is never [SendAlert]; it is
    [SendSummary] exactly when [last_daily_summary] is not today's date and
    the hour is 0, and [NoOp] otherwise; a summary whose send succeeds sets
    [last_daily_summary] to today's date. *)
Theorem summary_only_in_midnight_hour `{PythonRuntime} (self : manager)
    (st : flags) (now : clock) (smtp : smtp_outcome)
    (rd : gmap string value) (R T : spec_float) :
  PyFloat.ge R T = true ->
  rd !! "current_rate" = Some (VFloat R) -> rd !! "threshold" = Some (VFloat T) ->
  evaluate st now (VFloat R) (VFloat T) ≠ Ok SendAlert
  /\ (evaluate st now (VFloat R) (VFloat T) = Ok SendSummary
      <-> last_daily_summary st ≠ today now /\ hour now = 0)
  /\ (evaluate st now (VFloat R) (VFloat T) = Ok NoOp
      <-> ~ (last_daily_summary st ≠ today now /\ hour now = 0))
  /\ (evaluate st now (VFloat R) (VFloat T) = Ok SendSummary ->
      fst (_send_email_notification self now smtp rd false) = true ->
      send_notifications self st now smtp (Some rd)
      = (true,
         {| alert_sent_today := alert_sent_today st;
            last_daily_summary := today now |},
         snd (_send_email_notification self now smtp rd false))).
Proof.
  intros Hge Hcr Hth.
  assert (E : evaluate st now (VFloat R) (VFloat T)
              = Ok (if negb (String.eqb (last_daily_summary st) (today now))
                       && (hour now =? 0)%Z
                    then SendSummary else NoOp)).
  { rewrite evaluate_floats, (ge_not_lt _ _ Hge), Hge. reflexivity. }
  split; [|split; [|split]].
  - rewrite E. destruct (_ && _); discriminate.
  - rewrite E.
    destruct (String.eqb_spec (last_daily_summary st) (today now)) as [Heq|Hne],
      (Z.eqb_spec (hour now) 0) as [Hz|Hnz]; simpl;
      split; try discriminate; try tauto; intros [? ?]; contradiction.
  - rewrite E.
    destruct (String.eqb_spec (last_daily_summary st) (today now)) as [Heq|Hne],
      (Z.eqb_spec (hour now) 0) as [Hz|Hnz]; simpl;
      split; try discriminate; try tauto.
  - intros Es Hsent.
    rewrite (send_notifications_complete self st now smtp rd _ _ Hcr Hth)
      by reflexivity.
    rewrite (notify_summary self _ _ _ _ _ _ Es), Hsent. reflexivity.
Qed.

Lemma summary_only_in_midnight_hour_witness :
  evaluate initial_flags midnight (VFloat rate_5_05) (VFloat rate_5_05)
  ≠ Ok SendAlert
  /\ evaluate initial_flags midnight (VFloat rate_5_05) (VFloat rate_5_05)
     = Ok SendSummary.
Proof.
  assert (W := @summary_only_in_midnight_hour sample_runtime configured_manager
                 initial_flags midnight Delivered
                 (<["current_rate" := VFloat rate_5_05]> (test_rate_data "CAD-RMB"))
                 rate_5_05 rate_5_05).
  destruct W as (Hno & Hsum & _); try (vm_compute; reflexivity).
  split; [exact Hno|].
  apply Hsum. split; [discriminate|reflexivity].
Defined.

(** C4. When the decision is [SendAlert] or [SendSummary] and the send
    fails, [send_notifications] returns [False] and leaves both flags as
    they were, so the same inputs lead to the same decision again. *)
Theorem failed_send_leaves_flags `{PythonRuntime} (self : manager)
    (st : flags) (now : clock) (smtp : smtp_outcome)
    (rd : gmap string value) (cr th : value) :
  rd !! "current_rate" = Some cr -> rd !! "threshold" = Some th ->
  is_none cr = false -> is_none th = false ->
  (evaluate st now cr th = Ok SendAlert
   /\ fst (_send_email_notification self now smtp rd true) = false)
  \/ (evaluate st now cr th = Ok SendSummary
      /\ fst (_send_email_notification self now smtp rd false) = false) ->
  fst (fst (send_notifications self st now smtp (Some rd))) = false
  /\ snd (fst (send_notifications self st now smtp (Some rd))) = st
  /\ evaluate (snd (fst (send_notifications self st now smtp (Some rd))))
       now cr th
     = evaluate st now cr th.
Proof.
  intros Hcr Hth Ncr Nth Hfail.
  rewrite (send_notifications_complete self st now smtp rd cr th Hcr Hth Ncr Nth).
  destruct Hfail as [[Ed Hsend]|[Ed Hsend]].
  - rewrite (notify_alert self _ _ _ _ _ _ Ed), Hsend. simpl. auto.
  - rewrite (notify_summary self _ _ _ _ _ _ Ed), Hsend. simpl. auto.
Qed.

Lemma failed_send_leaves_flags_witness :
  fst (fst (@send_notifications sample_runtime configured_manager initial_flags
              morning Failed_before_handover (Some (test_rate_data "CAD-RMB"))))
  = false
  /\ snd (fst (@send_notifications sample_runtime configured_manager
                 initial_flags morning Failed_before_handover
                 (Some (test_rate_data "CAD-RMB"))))
     = initial_flags
  /\ evaluate
       (snd (fst (@send_notifications sample_runtime configured_manager
                    initial_flags morning Failed_before_handover
                    (Some (test_rate_data "CAD-RMB")))))
       morning (VFloat rate_5_02) (VFloat rate_5_05)
     = evaluate initial_flags morning (VFloat rate_5_02) (VFloat rate_5_05).
Proof.
  apply (@failed_send_leaves_flags sample_runtime configured_manager
           initial_flags morning Failed_before_handover
           (test_rate_data "CAD-RMB") (VFloat rate_5_02) (VFloat rate_5_05));
    try (vm_compute; reflexivity).
  left. split; vm_compute; reflexivity.
Defined.

(** C9. Without a sender address or without an app password the send step
    returns [True] and hands no message over; [send_notifications] then
    reports success and updates the flags as after a real send. *)
Theorem missing_credentials_count_as_sent `{PythonRuntime} (self : manager)
    (st : flags) (now : clock) (smtp : smtp_outcome)
    (rd : gmap string value) (cr th : value) :
  falsy (notification_config self !! "email") = true
  \/ falsy (notification_config self !! "gmail_app_password") = true ->
  rd !! "current_rate" = Some cr -> rd !! "threshold" = Some th ->
  is_none cr = false -> is_none th = false ->
  (forall is_alert,
     _send_email_notification self now smtp rd is_alert = (true, []))
  /\ (evaluate st now cr th = Ok SendAlert ->
      send_notifications self st now smtp (Some rd)
      = (true, {| alert_sent_today := true; last_daily_summary := "" |}, []))
  /\ (evaluate st now cr th = Ok SendSummary ->
      send_notifications self st now smtp (Some rd)
      = (true,
         {| alert_sent_today := alert_sent_today st;
            last_daily_summary := today now |}, [])).
Proof.
  intros Hcreds Hcr Hth Ncr Nth.
  assert (Hsend : forall is_alert,
             _send_email_notification self now smtp rd is_alert = (true, [])).
  { intros is_alert. unfold _send_email_notification.
    destruct Hcreds as [-> | ->]; [reflexivity|].
    rewrite orb_true_r. reflexivity. }
  split; [exact Hsend|].
  rewrite (send_notifications_complete self st now smtp rd cr th Hcr Hth Ncr Nth).
  split; intros Ed.
  - rewrite (notify_alert self _ _ _ _ _ _ Ed), Hsend. reflexivity.
  - rewrite (notify_summary self _ _ _ _ _ _ Ed), Hsend. reflexivity.
Qed.

Lemma missing_credentials_count_as_sent_witness :
  @send_notifications sample_runtime unconfigured_manager initial_flags morning
    Delivered (Some (test_rate_data "CAD-RMB"))
  = (true, {| alert_sent_today := true; last_daily_summary := "" |}, []).
Proof.
  refine (proj1 (proj2
    (@missing_credentials_count_as_sent sample_runtime unconfigured_manager
       initial_flags morning Delivered (test_rate_data "CAD-RMB")
       (VFloat rate_5_02) (VFloat rate_5_05) _ _ _ _ _)) _);
    try (vm_compute; reflexivity).
  left. vm_compute. reflexivity.
Defined.

(** C10. On [None] and on an empty dictionary [send_notifications] returns
    [True]; on a dictionary that is not empty but lacks ["current_rate"] or
    ["threshold"] it returns [False]; in each case nothing is sent and the
    flags stay as they are. *)
Theorem incomplete_rate_data `{PythonRuntime} (self : manager) (st : flags)
    (now : clock) (smtp : smtp_outcome) (rd : gmap string value) :
  rd ≠ ∅ ->
  rd !! "current_rate" = None \/ rd !! "threshold" = None ->
  send_notifications self st now smtp None = (true, st, [])
  /\ send_notifications self st now smtp (Some ∅) = (true, st, [])
  /\ send_notifications self st now smtp (Some rd) = (false, st, []).
Proof.
  intros Hne Hmiss. split; [reflexivity|]. split; [reflexivity|].
  unfold send_notifications. rewrite decide_False by assumption.
  unfold dict_get.
  destruct Hmiss as [-> | ->]; simpl; [reflexivity|].
  rewrite orb_true_r. reflexivity.
Qed.

Lemma incomplete_rate_data_witness :
  @send_notifications sample_runtime configured_manager initial_flags morning
    Delivered None = (true, initial_flags, [])
  /\ @send_notifications sample_runtime configured_manager initial_flags morning
       Delivered (Some ∅) = (true, initial_flags, [])
  /\ @send_notifications sample_runtime configured_manager initial_flags morning
       Delivered (Some (delete "threshold" (test_rate_data "CAD-RMB")))
     = (false, initial_flags, []).
Proof.
  apply (@incomplete_rate_data sample_runtime configured_manager initial_flags
           morning Delivered (delete "threshold" (test_rate_data "CAD-RMB"))).
  - apply (present_nonempty _ "current_rate" (VFloat rate_5_02)).
    vm_compute. reflexivity.
  - right. vm_compute. reflexivity.
Defined.

(** ** The retry wrapper *)

Section RetryFacts.
Variable fetch : nat -> result (option spec_float).
Variable max_attempts : Z.

Lemma backoff_before_last (a : nat) :
  Z.of_nat a < max_attempts - 1 ->
  backoff max_attempts a = [Sleep (2 ^ Z.of_nat a)].
Proof.
  intros Hlt. unfold backoff.
  destruct (Z.ltb_spec (Z.of_nat a) (max_attempts - 1)); [reflexivity|lia].
Qed.

Lemma backoff_at_last (a : nat) :
  max_attempts - 1 <= Z.of_nat a -> backoff max_attempts a = [].
Proof.
  intros Hge. unfold backoff.
  destruct (Z.ltb_spec (Z.of_nat a) (max_attempts - 1)); [lia|reflexivity].
Qed.

Lemma actions_app (tr tr' : list effect) :
  actions (tr ++ tr') = actions tr ++ actions tr'.
Proof. unfold actions. apply List.filter_app. Qed.

(** One failed attempt that is not the last: a call, a pause, and the rest. *)
Lemma attempts_failed_step (k a : nat) :
  failed (fetch a) = true ->
  Z.of_nat a < max_attempts - 1 ->
  fst (attempts fetch max_attempts (S k) a)
  = fst (attempts fetch max_attempts k (S a))
  /\ actions (snd (attempts fetch max_attempts (S k) a))
     = Fetch :: Sleep (2 ^ Z.of_nat a)
         :: actions (snd (attempts fetch max_attempts k (S a))).
Proof.
  intros Hf Hlt. simpl.
  destruct (fetch a) as [[v|]|e]; try discriminate;
    destruct (attempts fetch max_attempts k (S a)) as [r tr]; simpl;
    rewrite (backoff_before_last a Hlt);
    destruct (Z.ltb_spec (Z.of_nat a) (max_attempts - 1)); try lia;
    split; reflexivity.
Qed.

(** The last attempt, failed: a call and nothing after it. *)
Lemma attempts_failed_last (a : nat) :
  failed (fetch a) = true ->
  max_attempts - 1 <= Z.of_nat a ->
  fst (attempts fetch max_attempts 1 a) = None
  /\ actions (snd (attempts fetch max_attempts 1 a)) = [Fetch].
Proof.
  intros Hf Hge. simpl.
  destruct (fetch a) as [[v|]|e]; try discriminate; simpl;
    rewrite (backoff_at_last a Hge);
    destruct (Z.ltb_spec (Z.of_nat a) (max_attempts - 1)); try lia;
    split; reflexivity.
Qed.

Lemma attempts_first_success (n : nat) :
  forall (rem a : nat) (v : spec_float),
    (n < rem)%nat ->
    Z.of_nat (a + rem) = max_attempts ->
    fetch (a + n)%nat = Ok (Some v) ->
    (forall j, (j < n)%nat -> failed (fetch (a + j)%nat) = true) ->
    fst (attempts fetch max_attempts rem a) = Some v
    /\ actions (snd (attempts fetch max_attempts rem a))
       = flat_map (fun i => [Fetch; Sleep (2 ^ Z.of_nat i)]) (seq a n) ++ [Fetch].
Proof.
  induction n as [|n IH]; intros rem a v Hn Hmax Hok Hfail.
  - destruct rem as [|rem]; [lia|].
    simpl. rewrite Nat.add_0_r in Hok. rewrite Hok. split; reflexivity.
  - destruct rem as [|rem]; [lia|].
    assert (Hfa : failed (fetch a) = true).
    { specialize (Hfail 0%nat). rewrite Nat.add_0_r in Hfail. apply Hfail. lia. }
    destruct (attempts_failed_step rem a Hfa) as [Hr Htr]; [lia|].
    rewrite Hr, Htr.
    destruct (IH rem (S a) v) as [Hr' Htr']; try lia.
    + replace (S a + n)%nat with (a + S n)%nat by lia. exact Hok.
    + intros j Hj. replace (S a + j)%nat with (a + S j)%nat by lia.
      apply Hfail. lia.
    + rewrite Hr', Htr'. split; reflexivity.
Qed.

Lemma attempts_exhausted (rem : nat) :
  forall a : nat,
    Z.of_nat (a + S rem) = max_attempts ->
    (forall j, (j <= rem)%nat -> failed (fetch (a + j)%nat) = true) ->
    fst (attempts fetch max_attempts (S rem) a) = None
    /\ actions (snd (attempts fetch max_attempts (S rem) a))
       = flat_map (fun i => [Fetch; Sleep (2 ^ Z.of_nat i)]) (seq a rem) ++ [Fetch].
Proof.
  induction rem as [|rem IH]; intros a Hmax Hfail.
  - apply attempts_failed_last; [|lia].
    specialize (Hfail 0%nat). rewrite Nat.add_0_r in Hfail. apply Hfail. lia.
  - assert (Hfa : failed (fetch a) = true).
    { specialize (Hfail 0%nat). rewrite Nat.add_0_r in Hfail. apply Hfail. lia. }
    destruct (attempts_failed_step (S rem) a Hfa) as [Hr Htr]; [lia|].
    rewrite Hr, Htr.
    destruct (IH (S a)) as [Hr' Htr']; try lia.
    + intros j Hj. replace (S a + j)%nat with (a + S j)%nat by lia.
      apply Hfail. lia.
    + rewrite Hr', Htr'. split; reflexivity.
Qed.

Lemma attempts_calls_bounded (rem : nat) :
  forall a : nat, (calls (snd (attempts fetch max_attempts rem a)) <= rem)%nat.
Proof.
  induction rem as [|rem IH]; intros a; simpl.
  - unfold calls. simpl. lia.
  - specialize (IH (S a)).
    destruct (fetch a) as [[v|]|e]; simpl.
    + unfold calls. simpl. lia.
    + destruct (attempts fetch max_attempts rem (S a)) as [r tr]. simpl in *.
      unfold calls in *. simpl. rewrite !List.filter_app, !length_app.
      unfold backoff.
      destruct (Z.of_nat a <? max_attempts - 1); simpl; lia.
    + destruct (attempts fetch max_attempts rem (S a)) as [r tr]. simpl in *.
      unfold calls in *. simpl. rewrite !List.filter_app, !length_app.
      unfold backoff.
      destruct (Z.of_nat a <? max_attempts - 1); simpl; lia.
Qed.

(** Without a successful attempt the wrapper returns [None], whatever the
    number of attempts. *)
Lemma attempts_all_failed (rem : nat) :
  forall a : nat,
    (forall i, failed (fetch i) = true) ->
    fst (attempts fetch max_attempts rem a) = None.
Proof.
  induction rem as [|rem IH]; intros a Hfail; simpl; [reflexivity|].
  specialize (IH (S a) Hfail). specialize (Hfail a).
  destruct (fetch a) as [[v|]|e]; try discriminate;
    destruct (attempts fetch max_attempts rem (S a)) as [r tr]; exact IH.
Qed.

End RetryFacts.

Lemma sleeps_of_actions (tr : list effect) : sleeps (actions tr) = sleeps tr.
Proof.
  induction tr as [|[| s | l] tr IH]; simpl; try reflexivity;
    unfold sleeps in *; simpl; rewrite IH; reflexivity.
Qed.

Lemma calls_of_actions (tr : list effect) : calls (actions tr) = calls tr.
Proof.
  induction tr as [|[| s | l] tr IH]; simpl; try reflexivity;
    unfold calls in *; simpl; rewrite IH; reflexivity.
Qed.

Lemma sleeps_schedule_from (a k : nat) :
  sleeps (flat_map (fun i => [Fetch; Sleep (2 ^ Z.of_nat i)]) (seq a k) ++ [Fetch])
  = map (fun i => 2 ^ Z.of_nat i) (seq a k).
Proof.
  revert a. induction k as [|k IH]; intros a; [reflexivity|].
  simpl. unfold sleeps in *. simpl. rewrite (IH (S a)). reflexivity.
Qed.

Lemma calls_schedule_from (a k : nat) :
  calls (flat_map (fun i => [Fetch; Sleep (2 ^ Z.of_nat i)]) (seq a k) ++ [Fetch])
  = S k.
Proof.
  revert a. induction k as [|k IH]; intros a; [reflexivity|].
  simpl. unfold calls in *. simpl. rewrite (IH (S a)). reflexivity.
Qed.

(** C5. With [max_attempts >= 1], [get_rate_with_retry] calls the fetcher
    at most [max_attempts] times.  When the first successful attempt has
    index [k < max_attempts], it returns that rate after [k + 1] calls,
    having slept [2^i] seconds after each failed attempt [i < k] and not
    after the success.  When all [max_attempts] attempts fail, it returns
    [None] after sleeping [2^i] seconds after each failed attempt but the
    last.  A fetcher that fails twice and then succeeds, tried three times,
    gives its rate after sleeps of 1 and 2 seconds. *)
Theorem retry_with_exponential_backoff
    (fetch : nat -> result (option spec_float)) (configured max_attempts : Z) :
  1 <= max_attempts ->
  (calls (snd (get_rate_with_retry fetch configured (Some max_attempts)))
   <= Z.to_nat max_attempts)%nat
  /\ (forall (k : nat) (v : spec_float),
        (k < Z.to_nat max_attempts)%nat ->
        fetch k = Ok (Some v) ->
        (forall j, (j < k)%nat -> failed (fetch j) = true) ->
        fst (get_rate_with_retry fetch configured (Some max_attempts)) = Some v
        /\ actions (snd (get_rate_with_retry fetch configured (Some max_attempts)))
           = schedule k
        /\ calls (snd (get_rate_with_retry fetch configured (Some max_attempts)))
           = S k
        /\ sleeps (snd (get_rate_with_retry fetch configured (Some max_attempts)))
           = map (fun i => 2 ^ Z.of_nat i) (seq 0 k))
  /\ ((forall j, (j < Z.to_nat max_attempts)%nat -> failed (fetch j) = true) ->
      fst (get_rate_with_retry fetch configured (Some max_attempts)) = None
      /\ actions (snd (get_rate_with_retry fetch configured (Some max_attempts)))
         = schedule (Z.to_nat max_attempts - 1)
      /\ calls (snd (get_rate_with_retry fetch configured (Some max_attempts)))
         = Z.to_nat max_attempts
      /\ sleeps (snd (get_rate_with_retry fetch configured (Some max_attempts)))
         = map (fun i => 2 ^ Z.of_nat i) (seq 0 (Z.to_nat max_attempts - 1)))
  /\ (forall v : spec_float,
        fst (get_rate_with_retry (third_time_lucky v) configured (Some 3)) = Some v
        /\ sleeps (snd (get_rate_with_retry (third_time_lucky v) configured (Some 3)))
           = [1; 2]).
Proof.
  intros Hmax. unfold get_rate_with_retry, schedule. simpl.
  split; [apply attempts_calls_bounded|].
  split; [|split].
  - intros k v Hk Hok Hfail.
    destruct (attempts_first_success fetch max_attempts k (Z.to_nat max_attempts)
                0%nat v) as [Hr Htr]; try assumption; try lia.
    rewrite Hr.
    rewrite <- (calls_of_actions (snd _)), <- (sleeps_of_actions (snd _)), Htr.
    rewrite calls_schedule_from, sleeps_schedule_from. auto.
  - intros Hfail.
    destruct (Z.to_nat max_attempts) as [|rem] eqn:Hrem; [lia|].
    destruct (attempts_exhausted fetch max_attempts rem 0%nat) as [Hr Htr];
      try lia.
    { intros j Hj. apply Hfail. lia. }
    rewrite Hr.
    rewrite <- (calls_of_actions (snd _)), <- (sleeps_of_actions (snd _)), Htr.
    replace (S rem - 1)%nat with rem by lia.
    rewrite calls_schedule_from, sleeps_schedule_from. auto.
  - intros v. split; reflexivity.
Qed.

Lemma retry_with_exponential_backoff_witness :
  fst (get_rate_with_retry (third_time_lucky rate_5_02) 3 (Some 3))
  = Some rate_5_02
  /\ actions (snd (get_rate_with_retry (third_time_lucky rate_5_02) 3 (Some 3)))
     = [Fetch; Sleep 1; Fetch; Sleep 2; Fetch].
Proof.
  destruct (retry_with_exponential_backoff (third_time_lucky rate_5_02) 3 3)
    as (_ & Hfirst & _); [lia|].
  destruct (Hfirst 2%nat rate_5_02) as (Hr & Htr & _).
  - vm_compute. lia.
  - reflexivity.
  - intros [|[|j]] Hj; [reflexivity|reflexivity|lia].
  - split; [exact Hr|exact Htr].
Defined.

(** ** The rate fetcher *)

(** C7, as the code has it.  Whatever the request produces,
    [get_current_rate] returns: an exception raised inside its [try] becomes
    [None] and a log line.  The failure result is [None] in every case; the
    kind of failure shows in the log line only.  An absent currency code
    gives the line of the missing rate; a rate value [float] rejects with
    [ValueError] or [TypeError] gives the line of the extraction error; a
    transport error, an error status, an undecodable body, a document or
    rates map that is not a dictionary and a rate value too large for a
    float give the line of the request or fetch error.  At the retry wrapper
    a fetcher whose attempts all fail, by returning [None] or by raising,
    yields [None]. *)
Theorem fetch_failures_become_none `{PythonRuntime} (target : string)
    (o : http_outcome) (members rates : list (string * json))
    (fetch : nat -> result (option spec_float))
    (configured : Z) (max_attempts : option Z) :
  default (JObj []) (obj_get members "rates") = JObj rates ->
  obj_get rates target = None \/ obj_get rates target = Some JNull ->
  (forall i, failed (fetch i) = true) ->
  (forall e, fst (request_rate target o) = Raise e ->
     get_current_rate target o
     = (None, snd (request_rate target o) ++ [handler_line e]))
  /\ get_current_rate target (Body (JObj members))
     = (None, [Could_not_find_rate target])
  /\ (forall e, get_current_rate target (Get_raised e) = (None, [handler_line e]))
  /\ get_current_rate target Status_raised = (None, [Api_request_failed])
  /\ (forall e, get_current_rate target (Json_raised e) = (None, [handler_line e]))
  /\ (forall data, as_dict data = Raise AttributeError ->
        get_current_rate target (Body data)
        = (None, [Error_fetching_rate AttributeError]))
  /\ (forall ms v, obj_get ms "rates" = Some v ->
        as_dict v = Raise AttributeError ->
        get_current_rate target (Body (JObj ms))
        = (None, [Error_fetching_rate AttributeError]))
  /\ (forall ms rs v e,
        obj_get ms "rates" = Some (JObj rs) ->
        obj_get rs target = Some v ->
        v <> JNull ->
        py_float v = Raise e ->
        get_current_rate target (Body (JObj ms))
        = (None,
           [match e with
            | KeyError | ValueError | TypeError => Error_extracting_rate e
            | _ => Error_fetching_rate e
            end]))
  /\ fst (get_rate_with_retry fetch configured max_attempts) = None.
Proof.
  intros Hrates Habsent Hfail.
  split; [|split; [|split; [|split; [|split; [|split; [|split; [|split]]]]]]].
  - intros e He. unfold get_current_rate.
    destruct (request_rate target o) as [r logs]. simpl in He. subst r.
    reflexivity.
  - unfold get_current_rate, request_rate, _extract_rate_from_response,
      extract_rate. simpl. rewrite Hrates. simpl.
    destruct Habsent as [-> | ->]; reflexivity.
  - intros e. reflexivity.
  - reflexivity.
  - intros e. reflexivity.
  - intros data Hd. unfold get_current_rate, request_rate,
      _extract_rate_from_response, extract_rate. rewrite Hd. reflexivity.
  - intros ms v Hv Hd. unfold get_current_rate, request_rate,
      _extract_rate_from_response, extract_rate. simpl. rewrite Hv. simpl.
    rewrite Hd. reflexivity.
  - intros ms rs v e Hr Hv Hnull Hf.
    unfold get_current_rate, request_rate, _extract_rate_from_response,
      extract_rate. simpl. rewrite Hr. simpl. rewrite Hv.
    destruct v; simpl in Hf |- *; try contradiction;
      try (destruct (PyFloat.of_int _)); try (destruct (float_of_str _));
      try discriminate; injection Hf as <-; reflexivity.
  - unfold get_rate_with_retry. apply attempts_all_failed. exact Hfail.
Qed.

Lemma fetch_failures_become_none_witness :
  @get_current_rate sample_runtime "CNY" (Body (JObj members_without_yuan))
  = (None, [Could_not_find_rate "CNY"])
  /\ @get_current_rate sample_runtime "CNY" (Body (JObj members_with_bad_yuan))
     = (None, [Error_extracting_rate TypeError])
  /\ fst (get_rate_with_retry
            (fun _ => Ok (fst (@get_current_rate sample_runtime "CNY"
                                 (Body (JObj members_without_yuan)))))
            3 None)
     = None.
Proof.
  destruct (@fetch_failures_become_none sample_runtime "CNY" Status_raised
              members_without_yuan [("USD", JFloat rate_5_05)]
              (fun _ => Ok (fst (@get_current_rate sample_runtime "CNY"
                                   (Body (JObj members_without_yuan)))))
              3 None)
    as (_ & Hmissing & _ & _ & _ & _ & _ & Hbad & Hretry).
  - reflexivity.
  - left. reflexivity.
  - intros i. reflexivity.
  - split; [exact Hmissing|]. split; [|exact Hretry].
    apply (Hbad members_with_bad_yuan
             [("USD", JFloat rate_5_05); ("CNY", JArr [])] (JArr []) TypeError);
      [reflexivity|reflexivity|discriminate|reflexivity].
Defined.

(** C7 as stated fails on the code.  The value [get_current_rate] returns
    for an answer without the configured currency is the value it returns
    for an error status, [None]: nothing read off the returned value can
    tell an extraction error from a fetch error. *)
Lemma failure_kind_is_not_returned :
  fst (@get_current_rate sample_runtime "CNY" (Body (JObj members_without_yuan)))
  = fst (@get_current_rate sample_runtime "CNY" Status_raised)
  /\ ~ exists kind : option spec_float -> failure,
        kind (fst (@get_current_rate sample_runtime "CNY"
                     (Body (JObj members_without_yuan))))
        = ExtractionError
        /\ kind (fst (@get_current_rate sample_runtime "CNY" Status_raised))
           = FetchError.
Proof.
  split; [reflexivity|].
  intros (kind & Hextraction & Hfetch).
  change (fst (@get_current_rate sample_runtime "CNY"
                 (Body (JObj members_without_yuan))))
    with (@None spec_float) in Hextraction.
  change (fst (@get_current_rate sample_runtime "CNY" Status_raised))
    with (@None spec_float) in Hfetch.
  congruence.
Qed.

(** ** The monitoring loop *)

(** C1 fails on the code.  Two passes of the loop on the same day, each
    meeting a rate of 5.02 under the threshold of 5.05 and a working mail
    server, send two alerts on that day: the reset at the start of the
    second pass finds [last_daily_summary] empty, which the first alert left
    so, and clears [alert_sent_today]. *)
Theorem two_alerts_on_one_day :
  sent_on "2025-01-27" true
    (snd (@run_continuous_monitoring sample_runtime sample_bot initial_flags
            [ {| cycle_now := morning; cycle_response := response_5_02;
                 cycle_smtp := Delivered |};
              {| cycle_now := noon; cycle_response := response_5_02;
                 cycle_smtp := Delivered |} ]))
  = 2%nat
  /\ alert_sent_today
       (reset_daily_flags
          (snd (fst (@send_notifications sample_runtime configured_manager
                       initial_flags morning Delivered
                       (Some (rate_data_of sample_bot morning rate_5_02)))))
          noon)
     = false.
Proof. split; vm_compute; reflexivity. Qed.

(** ** The e-mail renderer *)

Lemma append_cons (c : ascii) (s t : string) :
  String c s +:+ t = String c (s +:+ t).
Proof. reflexivity. Qed.

Lemma prefix_append (n post : string) : String.prefix n (n +:+ post) = true.
Proof.
  induction n as [|c n IH].
  - destruct post; reflexivity.
  - rewrite append_cons. cbn [String.prefix].
    destruct (ascii_dec c c) as [_|Hne]; [exact IH|contradiction].
Qed.

Lemma contains_prefix (n h : string) :
  String.prefix n h = true -> contains n h = true.
Proof. intros Hp. destruct h; unfold contains; rewrite Hp; reflexivity. Qed.

Lemma contains_here (n post : string) : contains n (n +:+ post) = true.
Proof. apply contains_prefix, prefix_append. Qed.

Lemma contains_skip (n pre h : string) :
  contains n h = true -> contains n (pre +:+ h) = true.
Proof.
  intros Hh. induction pre as [|c pre IH]; [exact Hh|].
  rewrite append_cons. cbn [contains]. rewrite IH. apply orb_true_r.
Qed.

Lemma append_assoc (a b c : string) : (a +:+ b) +:+ c = a +:+ (b +:+ c).
Proof.
  induction a as [|x a IH]; [reflexivity|].
  rewrite !append_cons, IH. reflexivity.
Qed.

(** A field followed by a literal that starts with the percent sign. *)
Lemma contains_percent (a rest post : string) :
  contains (a +:+ "%") (a +:+ (String "%" rest +:+ post)) = true.
Proof.
  change (String "%" rest +:+ post) with ("%" +:+ (rest +:+ post)).
  rewrite <- append_assoc. apply contains_here.
Qed.

Ltac find_field :=
  repeat first [ apply contains_here | apply contains_percent | apply contains_skip ].

(** Each of the four figures is a field of both templates. *)
Lemma format_email_message_fields `{PythonRuntime} (now : clock)
    (rd : gmap string value) (is_alert : bool) (R T : spec_float) :
  rd !! "current_rate" = Some (VFloat R) -> rd !! "threshold" = Some (VFloat T) ->
  exists body : string,
    _format_email_message now rd is_alert = Ok body
    /\ contains (Format.format_f false 4 R) body = true
    /\ contains (Format.format_f false 4 T) body = true
    /\ contains (Format.format_f true 4 (PyFloat.sub R T)) body = true
    /\ contains
         (Format.format_f true 2
            (if PyFloat.gt T PyFloat.zero
             then PyFloat.mul (PyFloat.div (PyFloat.sub R T) T) PyFloat.hundred
             else PyFloat.zero) +:+ "%") body = true.
Proof.
  intros Hcr Hth. unfold _format_email_message, dict_get_default.
  rewrite Hcr, Hth.
  cbv beta iota zeta delta [default from_option id].
  change (if PyFloat.gt T PyFloat.zero
          then PyFloat.mul (PyFloat.div (PyFloat.sub R T) T) PyFloat.hundred
          else PyFloat.zero) with (percentage_change (PyFloat.sub R T) T).
  unfold _format_alert_email, _format_summary_email. cbv zeta.
  generalize (percentage_change (PyFloat.sub R T) T) as pct.
  generalize (PyFloat.sub R T) as diff. intros diff pct.
  generalize (Format.format_f false 4 R) as sR.
  generalize (Format.format_f false 4 T) as sT.
  generalize (Format.format_f true 4 diff) as sD.
  generalize (Format.format_f true 2 pct) as sP.
  intros sP sD sT sR.
  destruct is_alert; eexists; (split; [reflexivity|]).
  - split; [|split; [|split]]; find_field.
  - split; [|split; [|split]]; find_field.
Qed.

Lemma sample_figures :
  Format.format_f false 4 rate_5_02 = "5.0200"
  /\ Format.format_f false 4 rate_5_05 = "5.0500"
  /\ Format.format_f true 4 (PyFloat.sub rate_5_02 rate_5_05) = "-0.0300"
  /\ Format.format_f true 2
       (PyFloat.mul (PyFloat.div (PyFloat.sub rate_5_02 rate_5_05) rate_5_05)
          PyFloat.hundred) = "-0.59"
  /\ PyFloat.gt rate_5_05 PyFloat.zero = true.
Proof. repeat split; vm_compute; reflexivity. Qed.

(** C6, as the code has it.  The rendered body contains the rate and the
    threshold to four decimals, their signed difference to four decimals,
    and to two decimals the signed percentage
    [(current_rate - threshold) / threshold * 100], which is 0 whenever the
    threshold is not greater than 0.  For the rate 5.02 and the threshold
    5.05 the body contains "5.0200", "5.0500", "-0.0300" and "-0.59%". *)
Theorem rendered_figures `{PythonRuntime} (now : clock)
    (rd : gmap string value) (is_alert : bool) (R T : spec_float) :
  rd !! "current_rate" = Some (VFloat R) -> rd !! "threshold" = Some (VFloat T) ->
  exists body : string,
    _format_email_message now rd is_alert = Ok body
    /\ contains (Format.format_f false 4 R) body = true
    /\ contains (Format.format_f false 4 T) body = true
    /\ contains (Format.format_f true 4 (PyFloat.sub R T)) body = true
    /\ contains
         (Format.format_f true 2
            (if PyFloat.gt T PyFloat.zero
             then PyFloat.mul (PyFloat.div (PyFloat.sub R T) T) PyFloat.hundred
             else PyFloat.zero) +:+ "%") body = true
    /\ (R = rate_5_02 -> T = rate_5_05 ->
        contains "5.0200" body = true /\ contains "5.0500" body = true
        /\ contains "-0.0300" body = true /\ contains "-0.59%" body = true).
Proof.
  intros Hcr Hth.
  destruct (format_email_message_fields now rd is_alert R T Hcr Hth)
    as (body & Hbody & HR & HT & HD & HP).
  exists body. repeat (split; [assumption|]).
  intros -> ->.
  destruct sample_figures as (E1 & E2 & E3 & E4 & E5).
  rewrite E5, E4 in HP. rewrite E1 in HR. rewrite E2 in HT. rewrite E3 in HD.
  auto.
Qed.

Lemma rendered_figures_witness :
  exists body : string,
    @_format_email_message sample_runtime morning (test_rate_data "CAD-RMB") true
    = Ok body
    /\ contains "5.0200" body = true /\ contains "5.0500" body = true
    /\ contains "-0.0300" body = true /\ contains "-0.59%" body = true.
Proof.
  destruct (@rendered_figures sample_runtime morning (test_rate_data "CAD-RMB")
              true rate_5_02 rate_5_05)
    as (body & Hbody & _ & _ & _ & _ & Hsample);
    try (vm_compute; reflexivity).
  exists body. split; [exact Hbody|]. apply Hsample; reflexivity.
Defined.

(** C6 as stated fails on the code.  With the threshold -1.0 the stated
    percentage of the sample is -602.00, and the body does not contain it:
    the code shows +0.00%, because its guard is [threshold > 0]. *)
Lemma negative_threshold_shows_zero :
  Format.format_f true 2
    (spec_percentage_change (PyFloat.sub rate_5_02 minus_one) minus_one)
  = "-602.00"
  /\ exists body : string,
       @_format_email_message sample_runtime morning negative_threshold_data true
       = Ok body
       /\ contains
            (Format.format_f true 2
               (spec_percentage_change (PyFloat.sub rate_5_02 minus_one) minus_one)
             +:+ "%") body = false
       /\ contains "+0.00%" body = true.
Proof.
  split; [vm_compute; reflexivity|].
  eexists. split; [vm_compute; reflexivity|].
  split; vm_compute; reflexivity.
Qed.

(** * Further properties *)

(** ** What [send_notifications] sends and when it changes the flags *)

Section SendFacts.
Context `{PythonRuntime}.
Variable self : manager.

(** The send step hands over nothing or the one message it built. *)
Lemma send_email_events (now : clock) (smtp : smtp_outcome)
    (rd : gmap string value) (is_alert : bool) :
  snd (_send_email_notification self now smtp rd is_alert) = []
  \/ exists body,
       _format_email_message now rd is_alert = Ok body
       /\ snd (_send_email_notification self now smtp rd is_alert)
          = [Email is_alert (subject self is_alert) body].
Proof.
  unfold _send_email_notification.
  destruct (falsy _ || falsy _); [left; reflexivity|].
  destruct (_format_email_message now rd is_alert) as [body|e];
    [|left; reflexivity].
  destruct smtp; simpl; eauto.
Qed.

(** [send_notifications] hands over at most one message per call; the
    message is the rendering of the rate data it was given, under the
    subject of its kind. *)
Theorem send_notifications_at_most_one_message (st : flags) (now : clock)
    (smtp : smtp_outcome) (rate_data : option (gmap string value)) :
  snd (send_notifications self st now smtp rate_data) = []
  \/ exists (rd : gmap string value) (is_alert : bool) (body : string),
       rate_data = Some rd
       /\ _format_email_message now rd is_alert = Ok body
       /\ snd (send_notifications self st now smtp rate_data)
          = [Email is_alert (subject self is_alert) body].
Proof.
  unfold send_notifications.
  destruct rate_data as [rd|]; [|left; reflexivity].
  destruct (decide (rd = ∅)); [left; reflexivity|].
  destruct (is_none _ || is_none _); [left; reflexivity|].
  unfold notify.
  destruct (_should_send_alert st _ _) as [[]|e]; simpl; [| |left; reflexivity].
  - destruct (send_email_events now smtp rd true) as [Hnil|(body & Hb & Hev)];
      destruct (_send_email_notification self now smtp rd true) as [sent out];
      simpl in *; [left; assumption|right; exists rd, true, body; auto].
  - destruct (_should_send_daily_summary st now _ _) as [[]|e]; simpl;
      [| left; reflexivity | left; reflexivity].
    destruct (send_email_events now smtp rd false) as [Hnil|(body & Hb & Hev)];
      destruct (_send_email_notification self now smtp rd false) as [sent out];
      simpl in *; [left; assumption|right; exists rd, false, body; auto].
Qed.

(** A call that returns [False] leaves both flags as they were, whatever it
    was given; and no call clears [alert_sent_today]. *)
Theorem send_notifications_false_keeps_flags (st : flags) (now : clock)
    (smtp : smtp_outcome) (rate_data : option (gmap string value)) :
  (fst (fst (send_notifications self st now smtp rate_data)) = false ->
   snd (fst (send_notifications self st now smtp rate_data)) = st)
  /\ (alert_sent_today st = true ->
      alert_sent_today (snd (fst (send_notifications self st now smtp rate_data)))
      = true).
Proof.
  unfold send_notifications.
  destruct rate_data as [rd|]; [|split; auto].
  destruct (decide (rd = ∅)); [split; auto|].
  destruct (is_none _ || is_none _); [split; auto|].
  unfold notify.
  destruct (_should_send_alert st _ _) as [[]|e]; simpl; [| |split; auto].
  - destruct (_send_email_notification self now smtp rd true) as [[] out];
      simpl; split; auto; discriminate.
  - destruct (_should_send_daily_summary st now _ _) as [[]|e]; simpl;
      [|split; auto|split; auto].
    destruct (_send_email_notification self now smtp rd false) as [[] out];
      simpl; split; auto; discriminate.
Qed.

(** An alert is handed over only for a rate below the threshold with
    [alert_sent_today] unset; a summary only for a rate at or above the
    threshold, in the hour 0, with [last_daily_summary] not today's date. *)
Theorem message_kind_follows_rate (st : flags) (now : clock)
    (smtp : smtp_outcome) (rd : gmap string value) (R T : spec_float)
    (is_alert : bool) (subj body : string) :
  rd !! "current_rate" = Some (VFloat R) -> rd !! "threshold" = Some (VFloat T) ->
  In (Email is_alert subj body)
     (snd (send_notifications self st now smtp (Some rd))) ->
  if is_alert
  then PyFloat.lt R T = true /\ alert_sent_today st = false
  else PyFloat.ge R T = true /\ hour now = 0
       /\ last_daily_summary st <> today now.
Proof.
  intros Hcr Hth.
  rewrite (send_notifications_complete self st now smtp rd _ _ Hcr Hth)
    by reflexivity.
  pose proof (evaluate_floats st now R T) as E.
  destruct (PyFloat.lt R T && negb (alert_sent_today st)) eqn:Ha.
  - rewrite (notify_alert self _ _ smtp rd _ _ E). simpl.
    destruct (send_email_events now smtp rd true) as [->|(b & _ & ->)];
      simpl; [tauto|].
    intros [Heq|[]]. inversion Heq; subst.
    apply andb_prop in Ha as [? Hf]. apply negb_true_iff in Hf. auto.
  - destruct (negb (String.eqb (last_daily_summary st) (today now))
              && (PyFloat.ge R T && (hour now =? 0))) eqn:Hs.
    + rewrite (notify_summary self _ _ smtp rd _ _ E). simpl.
      destruct (send_email_events now smtp rd false) as [->|(b & _ & ->)];
        simpl; [tauto|].
      intros [Heq|[]]. inversion Heq; subst.
      apply andb_prop in Hs as [Hd Hs]. apply andb_prop in Hs as [Hg Hh].
      apply negb_true_iff in Hd. apply String.eqb_neq in Hd.
      apply Z.eqb_eq in Hh. auto.
    + rewrite (notify_noop self _ _ smtp rd _ _ E). simpl. tauto.
Qed.

(** A NaN as rate or as threshold never leads to a message: the call
    returns [True] and changes nothing. *)
Theorem nan_is_silent (st : flags) (now : clock) (smtp : smtp_outcome)
    (rd : gmap string value) (R T : spec_float) :
  rd !! "current_rate" = Some (VFloat R) -> rd !! "threshold" = Some (VFloat T) ->
  R = S754_nan \/ T = S754_nan ->
  send_notifications self st now smtp (Some rd) = (true, st, []).
Proof.
  intros Hcr Hth Hnan.
  rewrite (send_notifications_complete self st now smtp rd _ _ Hcr Hth)
    by reflexivity.
  rewrite (notify_noop self st now smtp rd); [reflexivity|].
  rewrite evaluate_floats.
  assert (PyFloat.lt R T = false /\ PyFloat.ge R T = false) as [-> ->].
  { destruct Hnan as [-> | ->]; [destruct T|destruct R]; split; reflexivity. }
  simpl. rewrite andb_false_r. reflexivity.
Qed.

(** A rate and a threshold of different types (a string against a float)
    make the comparison raise; the call returns [False], sends nothing and
    changes nothing. *)
Theorem mixed_types_are_refused (st : flags) (now : clock)
    (smtp : smtp_outcome) (rd : gmap string value) (s : string) (x : spec_float) :
  (rd !! "current_rate" = Some (VStr s) /\ rd !! "threshold" = Some (VFloat x))
  \/ (rd !! "current_rate" = Some (VFloat x) /\ rd !! "threshold" = Some (VStr s)) ->
  send_notifications self st now smtp (Some rd) = (false, st, []).
Proof.
  intros [[Hcr Hth]|[Hcr Hth]];
    rewrite (send_notifications_complete self st now smtp rd _ _ Hcr Hth)
      by reflexivity;
    reflexivity.
Qed.

(** [send_test_notification] goes through the same decision as a real
    sample: with [alert_sent_today] set it reports success and sends
    nothing; otherwise it sends a real alert, and a successful one sets
    [alert_sent_today] and clears [last_daily_summary]. *)
Theorem test_notification_uses_the_alert (st : flags) (now : clock)
    (smtp : smtp_outcome) :
  send_test_notification self st now smtp
  = if alert_sent_today st then (true, st, [])
    else (fst (_send_email_notification self now smtp
                 (test_rate_data (currency_pair self)) true),
          (if fst (_send_email_notification self now smtp
                     (test_rate_data (currency_pair self)) true)
           then {| alert_sent_today := true; last_daily_summary := "" |}
           else st),
          snd (_send_email_notification self now smtp
                 (test_rate_data (currency_pair self)) true)).
Proof.
  unfold send_test_notification.
  assert (Hcr : test_rate_data (currency_pair self) !! "current_rate"
                = Some (VFloat rate_5_02)) by reflexivity.
  assert (Hth : test_rate_data (currency_pair self) !! "threshold"
                = Some (VFloat rate_5_05)) by reflexivity.
  rewrite (send_notifications_complete self st now smtp _ _ _ Hcr Hth)
    by reflexivity.
  pose proof (evaluate_floats st now rate_5_02 rate_5_05) as E.
  change (PyFloat.lt rate_5_02 rate_5_05) with true in E.
  change (PyFloat.ge rate_5_02 rate_5_05) with false in E.
  destruct (alert_sent_today st); simpl in E.
  - rewrite andb_false_r in E.
    rewrite (notify_noop self _ _ smtp _ _ _ E). reflexivity.
  - rewrite (notify_alert self _ _ smtp _ _ _ E). reflexivity.
Qed.

End SendFacts.

Lemma message_kind_follows_rate_witness :
  PyFloat.lt rate_5_02 rate_5_05 = true
  /\ alert_sent_today initial_flags = false.
Proof.
  apply (@message_kind_follows_rate sample_runtime configured_manager
           initial_flags morning Delivered (test_rate_data "CAD-RMB")
           rate_5_02 rate_5_05 true
           (subject configured_manager true)
           (@_format_alert_email morning rate_5_02 rate_5_05
              (PyFloat.sub rate_5_02 rate_5_05)
              (percentage_change (PyFloat.sub rate_5_02 rate_5_05) rate_5_05)
              "2025-01-27 10:00:00 UTC" "CAD-RMB"));
    vm_compute; auto.
Defined.

Lemma nan_is_silent_witness :
  @send_notifications sample_runtime configured_manager initial_flags midnight
    Delivered (Some (<["current_rate" := VFloat S754_nan]> (test_rate_data "CAD-RMB")))
  = (true, initial_flags, []).
Proof.
  apply (@nan_is_silent sample_runtime configured_manager initial_flags midnight
           Delivered _ S754_nan rate_5_05);
    [vm_compute; reflexivity | vm_compute; reflexivity | left; reflexivity].
Defined.

Lemma mixed_types_are_refused_witness :
  @send_notifications sample_runtime configured_manager initial_flags morning
    Delivered (Some (<["current_rate" := VStr "5.02"]> (test_rate_data "CAD-RMB")))
  = (false, initial_flags, []).
Proof.
  apply (@mixed_types_are_refused sample_runtime configured_manager initial_flags
           morning Delivered _ "5.02" rate_5_05).
  left. split; vm_compute; reflexivity.
Defined.

(** ** The fetcher's results and its log *)

Section FetchFacts.
Context `{PythonRuntime}.
Variable target : string.

Lemma extract_rate_shape (data : json) :
  (exists x, extract_rate target data = (Ok (Some x), []))
  \/ extract_rate target data = (Ok None, [Could_not_find_rate target])
  \/ (exists e, extract_rate target data = (Raise e, [])).
Proof.
  unfold extract_rate.
  destruct (as_dict data) as [members|e]; [|eauto].
  destruct (as_dict _) as [rates|e]; [|eauto].
  destruct (obj_get rates target) as [v|]; [|auto].
  destruct v; simpl; auto;
    match goal with
    | |- context [PyFloat.of_int ?z] => destruct (PyFloat.of_int z)
    | |- context [float_of_str ?s] => destruct (float_of_str s)
    | _ => idtac
    end; eauto.
Qed.

(** Every call of [get_current_rate] ends in one of two ways: a rate and no
    log line, or [None] and exactly one log line. *)
Theorem every_failure_is_logged_once (o : http_outcome) :
  (exists x, get_current_rate target o = (Some x, []))
  \/ (exists line, get_current_rate target o = (None, [line])).
Proof.
  unfold get_current_rate.
  destruct o as [e| |e|data]; simpl; eauto.
  unfold _extract_rate_from_response.
  destruct (extract_rate_shape data) as [(x & ->)|[->|(e & ->)]]; eauto.
  destruct e; eauto.
Qed.

(** [get_current_rate] returns a rate only when the document is an object
    whose ["rates"] member is an object that binds the target currency to a
    value [float] accepts; the rate is that conversion. *)
Theorem rate_comes_from_the_rates_map (o : http_outcome) (x : spec_float) :
  fst (get_current_rate target o) = Some x
  <-> exists members rates v,
        o = Body (JObj members)
        /\ obj_get members "rates" = Some (JObj rates)
        /\ obj_get rates target = Some v
        /\ py_float v = Ok x.
Proof.
  split.
  - unfold get_current_rate.
    destruct o as [e| |e|data]; simpl; try discriminate.
    unfold _extract_rate_from_response, extract_rate.
    destruct data as [| | | | | |members]; simpl; try discriminate.
    destruct (obj_get members "rates") as [r|] eqn:Hr; simpl;
      [|discriminate].
    destruct r as [| | | | | |rates]; simpl; try discriminate.
    destruct (obj_get rates target) as [v|] eqn:Hv; simpl; [|discriminate].
    destruct v; simpl; try discriminate;
      try (destruct (PyFloat.of_int _) eqn:E);
      try (destruct (float_of_str _) eqn:E);
      simpl; try discriminate;
      intros [= <-]; do 3 eexists;
      (split; [reflexivity|split; [exact Hr|split; [exact Hv|]]]);
      simpl; rewrite ?E; reflexivity.
  - intros (members & rates & v & -> & Hr & Hv & Hf).
    unfold get_current_rate, request_rate, _extract_rate_from_response,
      extract_rate. simpl. rewrite Hr. simpl. rewrite Hv.
    destruct v; simpl in Hf |- *; try discriminate;
      try (destruct (PyFloat.of_int _)); try (destruct (float_of_str _));
      try discriminate; injection Hf as ->; reflexivity.
Qed.

Variable base_currency : string.

(** On the same answer of the API, [get_rate_info] returns [None] exactly
    when the [try] of [get_current_rate] raises, and the ["target_rate"] of
    the dictionary it returns otherwise is what [get_current_rate] returns:
    an absent currency gives a dictionary with [None] in it, not [None]. *)
Theorem rate_info_agrees_with_current_rate (o : http_outcome) :
  (fst (get_rate_info base_currency target o) = None
   <-> exists e, fst (request_rate target o) = Raise e)
  /\ (forall info, fst (get_rate_info base_currency target o) = Some info ->
        info_target_rate info = fst (get_current_rate target o)).
Proof.
  unfold get_rate_info, get_current_rate, request_rate.
  destruct o as [e| |e|data]; simpl;
    try (split; [split; eauto|discriminate]).
  unfold rate_info_of.
  destruct (as_dict data) as [members|e] eqn:Hd.
  - destruct (_extract_rate_from_response target data) as [[r|e] logs]; simpl.
    + split; [split; [discriminate|intros [e [=]]]|].
      intros info [= <-]. reflexivity.
    + split; [split; eauto|discriminate].
  - assert (Hx : _extract_rate_from_response target data = (Raise AttributeError, [])).
    { unfold _extract_rate_from_response, extract_rate. rewrite Hd.
      destruct data; simpl in Hd; try discriminate; injection Hd as <-;
        reflexivity. }
    rewrite Hx. simpl. split; [split; eauto|discriminate].
Qed.

End FetchFacts.

(** ** The retry wrapper at its bounds *)

(** With no attempt allowed ([max_attempts <= 0]) the fetcher is not called:
    the wrapper logs its final failure and returns [None]. *)
Theorem no_attempt_without_budget (fetch : nat -> result (option spec_float))
    (configured max_attempts : Z) :
  max_attempts <= 0 ->
  get_rate_with_retry fetch configured (Some max_attempts)
  = (None, [Log (Failed_after max_attempts)]).
Proof.
  intros Hle. unfold get_rate_with_retry. simpl.
  replace (Z.to_nat max_attempts) with 0%nat by lia. reflexivity.
Qed.

Lemma no_attempt_without_budget_witness :
  get_rate_with_retry (third_time_lucky rate_5_02) 3 (Some 0)
  = (None, [Log (Failed_after 0)]).
Proof. apply (no_attempt_without_budget (third_time_lucky rate_5_02) 3 0). lia. Defined.

Lemma sum_of_backoffs (k : nat) :
  forall a : nat,
    fold_right Z.add 0 (map (fun i => 2 ^ Z.of_nat i) (seq a k))
    = 2 ^ Z.of_nat (a + k) - 2 ^ Z.of_nat a.
Proof.
  induction k as [|k IH]; intros a; simpl.
  - rewrite Nat.add_0_r. lia.
  - rewrite (IH (S a)).
    replace (Z.of_nat (S a + k)) with (Z.of_nat (a + S k)) by lia.
    replace (Z.of_nat (S a)) with (Z.of_nat a + 1) by lia.
    rewrite Z.pow_add_r by lia. lia.
Qed.

(** The time spent in back-off: [2^k - 1] seconds when the first successful
    attempt has index [k], and [2^(max_attempts - 1) - 1] seconds when all
    [max_attempts] attempts fail. *)
Theorem total_backoff_time (fetch : nat -> result (option spec_float))
    (configured max_attempts : Z) :
  1 <= max_attempts ->
  (forall (k : nat) (v : spec_float),
     (k < Z.to_nat max_attempts)%nat ->
     fetch k = Ok (Some v) ->
     (forall j, (j < k)%nat -> failed (fetch j) = true) ->
     total_sleep (snd (get_rate_with_retry fetch configured (Some max_attempts)))
     = 2 ^ Z.of_nat k - 1)
  /\ ((forall j, (j < Z.to_nat max_attempts)%nat -> failed (fetch j) = true) ->
      total_sleep (snd (get_rate_with_retry fetch configured (Some max_attempts)))
      = 2 ^ (max_attempts - 1) - 1).
Proof.
  intros Hmax. unfold get_rate_with_retry, total_sleep. simpl. split.
  - intros k v Hk Hok Hfail.
    destruct (attempts_first_success fetch max_attempts k (Z.to_nat max_attempts)
                0%nat v) as [_ Htr]; try assumption; try lia.
    rewrite <- (sleeps_of_actions (snd _)), Htr, sleeps_schedule_from.
    rewrite sum_of_backoffs. simpl. lia.
  - intros Hfail.
    destruct (Z.to_nat max_attempts) as [|rem] eqn:Hrem; [lia|].
    destruct (attempts_exhausted fetch max_attempts rem 0%nat) as [_ Htr];
      try lia.
    { intros j Hj. apply Hfail. lia. }
    rewrite <- (sleeps_of_actions (snd _)), Htr, sleeps_schedule_from.
    rewrite sum_of_backoffs. simpl.
    replace (max_attempts - 1) with (Z.of_nat rem) by lia. lia.
Qed.

Lemma total_backoff_time_witness :
  total_sleep (snd (get_rate_with_retry (fun _ => Ok None) 3 (Some 3))) = 3.
Proof.
  destruct (total_backoff_time (fun _ => Ok None) 3 3) as [_ Hall]; [lia|].
  apply Hall. intros j _. reflexivity.
Defined.

(** ** The bot's two modes *)

Section BotFacts.
Context `{PythonRuntime}.
Variable self : bot.

Lemma rate_data_of_entries (now : clock) (r : spec_float) :
  rate_data_of self now r !! "current_rate" = Some (VFloat r)
  /\ rate_data_of self now r !! "threshold" = Some (VFloat (threshold self)).
Proof. split; reflexivity. Qed.

(** What [send_notifications] does with the dictionary the bot builds. *)
Lemma bot_send (st : flags) (now : clock) (smtp : smtp_outcome) (r : spec_float) :
  send_notifications (notifications self) st now smtp
    (Some (rate_data_of self now r))
  = try_except
      (notify (notifications self) st now smtp (rate_data_of self now r)
         (VFloat r) (VFloat (threshold self)))
      (fun _ => (false, st, [])).
Proof.
  destruct (rate_data_of_entries now r) as [Hcr Hth].
  apply (send_notifications_complete _ st now smtp _ _ _ Hcr Hth); reflexivity.
Qed.

(** A single check sends nothing unless the rate is below the threshold, and
    then at most the alert: it never sends a summary. *)
Theorem single_check_sends_alerts_only (st : flags) (now : clock)
    (response : http_outcome) (smtp : smtp_outcome) (e : event) :
  In e (snd (run_single_check self st now response smtp)) ->
  exists body, e = Email true (subject (notifications self) true) body.
Proof.
  unfold run_single_check.
  destruct (fst (get_current_rate _ response)) as [r|]; [|intros []].
  destruct (PyFloat.truthy r); [|intros []].
  destruct (PyFloat.lt r (threshold self)) eqn:Hlt; [|intros []].
  rewrite bot_send.
  pose proof (evaluate_floats st now r (threshold self)) as E.
  rewrite Hlt, (lt_not_ge _ _ Hlt) in E. simpl in E.
  rewrite andb_false_r in E.
  destruct (alert_sent_today st); simpl in E.
  - rewrite (notify_noop _ _ _ smtp _ _ _ E). intros [].
  - rewrite (notify_alert _ _ _ smtp _ _ _ E). simpl.
    destruct (send_email_events (notifications self) now smtp
                (rate_data_of self now r) true) as [->|(body & _ & ->)];
      [intros []|].
    intros [<-|[]]. eauto.
Qed.

(** Single checks never reset the flags: once [alert_sent_today] is set, a
    single check sends nothing and changes nothing, on whatever date. *)
Theorem single_check_after_alert_is_silent (st : flags) (now : clock)
    (response : http_outcome) (smtp : smtp_outcome) :
  alert_sent_today st = true ->
  run_single_check self st now response smtp = (st, []).
Proof.
  intros Hsent. unfold run_single_check.
  destruct (fst (get_current_rate _ response)) as [r|]; [|reflexivity].
  destruct (PyFloat.truthy r); [|reflexivity].
  destruct (PyFloat.lt r (threshold self)) eqn:Hlt; [|reflexivity].
  rewrite bot_send.
  pose proof (evaluate_floats st now r (threshold self)) as E.
  rewrite Hlt, (lt_not_ge _ _ Hlt), Hsent in E. simpl in E.
  rewrite andb_false_r in E.
  rewrite (notify_noop _ _ _ smtp _ _ _ E). reflexivity.
Qed.

(** A rate the answer binds the target currency to is what
    [get_current_rate] returns. *)
Lemma bound_rate_is_returned (response : http_outcome)
    (members rates : list (string * json)) (v : json) (x : spec_float) :
  response = Body (JObj members) ->
  obj_get members "rates" = Some (JObj rates) ->
  obj_get rates (target_currency self) = Some v ->
  py_float v = Ok x ->
  fst (get_current_rate (target_currency self) response) = Some x.
Proof.
  intros -> Hr Hv Hf.
  unfold get_current_rate, request_rate, _extract_rate_from_response,
    extract_rate. simpl. rewrite Hr. simpl. rewrite Hv.
  destruct v; simpl in Hf |- *; try discriminate;
    try (destruct (PyFloat.of_int _)); try (destruct (float_of_str _));
    try discriminate; injection Hf as ->; reflexivity.
Qed.

(** A rate of zero in the answer of the API is dropped like a failed fetch,
    although it is below any positive threshold: the pass of the loop only
    resets the flags, and a single check does nothing. *)
Theorem zero_rate_is_dropped (st : flags) (now : clock) (smtp : smtp_outcome)
    (response : http_outcome) (members rates : list (string * json))
    (v : json) (sign : bool) :
  response = Body (JObj members) ->
  obj_get members "rates" = Some (JObj rates) ->
  obj_get rates (target_currency self) = Some v ->
  py_float v = Ok (S754_zero sign) ->
  monitoring_cycle self st
    {| cycle_now := now; cycle_response := response; cycle_smtp := smtp |}
  = (reset_daily_flags st now, [])
  /\ run_single_check self st now response smtp = (st, []).
Proof.
  intros Hresp Hr Hv Hf.
  pose proof (bound_rate_is_returned response members rates v _ Hresp Hr Hv Hf)
    as Hrate.
  unfold monitoring_cycle, run_single_check. simpl. rewrite Hrate.
  split; reflexivity.
Qed.

(** In the loop [alert_sent_today] holds an alert back only after a summary
    of the same day: when [last_daily_summary] is not today's date, as after
    every alert, a pass that meets a rate below the threshold hands the alert
    to the send step whatever [alert_sent_today] says. *)
Theorem loop_repeats_the_alert (st : flags) (c : cycle) (r : spec_float) :
  fst (get_current_rate (target_currency self) (cycle_response c)) = Some r ->
  PyFloat.truthy r = true ->
  PyFloat.lt r (threshold self) = true ->
  last_daily_summary st <> today (cycle_now c) ->
  snd (monitoring_cycle self st c)
  = snd (_send_email_notification (notifications self) (cycle_now c)
           (cycle_smtp c) (rate_data_of self (cycle_now c) r) true).
Proof.
  intros Hr Ht Hlt Hday. unfold monitoring_cycle. rewrite Hr, Ht.
  assert (Hreset : reset_daily_flags st (cycle_now c)
                   = {| alert_sent_today := false; last_daily_summary := "" |}).
  { unfold reset_daily_flags, _get_today_date.
    apply String.eqb_neq in Hday. rewrite Hday. reflexivity. }
  rewrite Hreset, bot_send.
  pose proof (evaluate_floats
                {| alert_sent_today := false; last_daily_summary := "" |}
                (cycle_now c) r (threshold self)) as E.
  rewrite Hlt in E. simpl in E.
  rewrite (notify_alert _ _ _ (cycle_smtp c) _ _ _ E). simpl.
  destruct (_send_email_notification _ _ _ _ true) as [sent out].
  reflexivity.
Qed.

End BotFacts.

Lemma single_check_sends_alerts_only_witness :
  exists body,
    Email true (subject configured_manager true)
      (@_format_alert_email morning rate_5_02 rate_5_05
         (PyFloat.sub rate_5_02 rate_5_05)
         (percentage_change (PyFloat.sub rate_5_02 rate_5_05) rate_5_05)
         "2025-01-27T10:00:00.000000" "CAD-RMB")
    = Email true (subject (notifications sample_bot) true) body.
Proof.
  apply (@single_check_sends_alerts_only sample_runtime sample_bot initial_flags
           morning response_5_02 Delivered).
  vm_compute. left. reflexivity.
Defined.

Lemma single_check_after_alert_is_silent_witness :
  @run_single_check sample_runtime sample_bot
    {| alert_sent_today := true; last_daily_summary := "" |} noon
    response_5_02 Delivered
  = ({| alert_sent_today := true; last_daily_summary := "" |}, []).
Proof.
  apply (@single_check_after_alert_is_silent sample_runtime sample_bot).
  reflexivity.
Defined.

Lemma zero_rate_is_dropped_witness :
  @monitoring_cycle sample_runtime sample_bot initial_flags
    {| cycle_now := morning; cycle_response := response_zero;
       cycle_smtp := Delivered |}
  = (reset_daily_flags initial_flags morning, [])
  /\ @run_single_check sample_runtime sample_bot initial_flags morning
       response_zero Delivered
     = (initial_flags, []).
Proof.
  apply (@zero_rate_is_dropped sample_runtime sample_bot initial_flags morning
           Delivered response_zero
           [("base", JStr "CAD"); ("rates", JObj [("CNY", JInt 0)])]
           [("CNY", JInt 0)] (JInt 0) false);
    reflexivity.
Defined.

Lemma loop_repeats_the_alert_witness :
  snd (@monitoring_cycle sample_runtime sample_bot
         {| alert_sent_today := true; last_daily_summary := "" |}
         {| cycle_now := noon; cycle_response := response_5_02;
            cycle_smtp := Delivered |})
  = snd (@_send_email_notification sample_runtime configured_manager noon
           Delivered (rate_data_of sample_bot noon rate_5_02) true).
Proof.
  apply (@loop_repeats_the_alert sample_runtime sample_bot
           {| alert_sent_today := true; last_daily_summary := "" |}
           {| cycle_now := noon; cycle_response := response_5_02;
              cycle_smtp := Delivered |} rate_5_02);
    try (vm_compute; reflexivity).
  vm_compute. discriminate.
Defined.

(** ** A day without a rate below the threshold *)

Section CalmDay.
Context `{PythonRuntime}.
Variable self : bot.
Variable day : string.

(** The send step with a mail server that does not fail after taking the
    message: success with at most the message, or failure with none. *)
Lemma send_step_outcomes (m : manager) (now : clock) (smtp : smtp_outcome)
    (rd : gmap string value) (is_alert : bool) :
  smtp <> Failed_after_handover ->
  _send_email_notification m now smtp rd is_alert = (false, [])
  \/ _send_email_notification m now smtp rd is_alert = (true, [])
  \/ exists body,
       _send_email_notification m now smtp rd is_alert
       = (true, [Email is_alert (subject m is_alert) body]).
Proof.
  intros Hsmtp. unfold _send_email_notification.
  destruct (falsy _ || falsy _); [auto|].
  destruct (_format_email_message now rd is_alert) as [body|e]; [|auto].
  destruct smtp; [eauto|auto|contradiction].
Qed.

(** A calm pass decides [SendSummary] or [NoOp]. *)
Lemma calm_cycle_decision (st : flags) (c : cycle) (r : spec_float) :
  PyFloat.lt r (threshold self) = false ->
  evaluate st (cycle_now c) (VFloat r) (VFloat (threshold self))
  = Ok (if negb (String.eqb (last_daily_summary st) (today (cycle_now c)))
           && (PyFloat.ge r (threshold self) && (hour (cycle_now c) =? 0))
        then SendSummary else NoOp).
Proof. intros Hlt. rewrite evaluate_floats, Hlt. reflexivity. Qed.

(** After the summary of the day the calm passes of that day send nothing. *)
Lemma calm_after_summary (cycles : list cycle) :
  forall st : flags,
    last_daily_summary st = day ->
    Forall (calm_cycle self day) cycles ->
    run_continuous_monitoring self st cycles = (st, []).
Proof.
  induction cycles as [|c cycles IH]; intros st Hlast Hcalm; [reflexivity|].
  inversion Hcalm as [|? ? (Hday & _ & Hrate) Hrest]; subst.
  assert (Hc : monitoring_cycle self st c = (st, [])).
  { unfold monitoring_cycle.
    assert (Hreset : reset_daily_flags st (cycle_now c) = st).
    { unfold reset_daily_flags, _get_today_date.
      rewrite Hday, String.eqb_refl. reflexivity. }
    rewrite Hreset.
    destruct (fst (get_current_rate _ _)) as [r|] eqn:Hr; [|reflexivity].
    destruct (PyFloat.truthy r); [|reflexivity].
    rewrite bot_send.
    pose proof (calm_cycle_decision st c r (Hrate r eq_refl)) as E.
    rewrite Hday, String.eqb_refl in E. simpl in E.
    rewrite (notify_noop _ _ _ (cycle_smtp c) _ _ _ E). reflexivity. }
  simpl. rewrite Hc, (IH st eq_refl Hrest). reflexivity.
Qed.

(** A calm pass sends nothing, or it sends the summary and records the
    day. *)
Lemma calm_cycle_outcome (st : flags) (c : cycle) :
  calm_cycle self day c ->
  (exists st', monitoring_cycle self st c = (st', []))
  \/ exists st' body,
       last_daily_summary st' = day
       /\ monitoring_cycle self st c
          = (st', [Email false (subject (notifications self) false) body]).
Proof.
  intros (Hday & Hsmtp & Hrate). unfold monitoring_cycle.
  set (st1 := reset_daily_flags st (cycle_now c)).
  destruct (fst (get_current_rate _ _)) as [r|] eqn:Hr; [|eauto].
  destruct (PyFloat.truthy r); [|eauto].
  rewrite bot_send.
  pose proof (calm_cycle_decision st1 c r (Hrate r eq_refl)) as E.
  destruct (negb _ && _).
  - rewrite (notify_summary _ _ _ (cycle_smtp c) _ _ _ E).
    destruct (send_step_outcomes (notifications self) (cycle_now c)
                (cycle_smtp c) (rate_data_of self (cycle_now c) r) false Hsmtp)
      as [Hs|[Hs|(body & Hs)]]; rewrite Hs; simpl; [eauto|eauto|].
    right. eexists. exists body. split; [|reflexivity]. exact Hday.
  - rewrite (notify_noop _ _ _ (cycle_smtp c) _ _ _ E). simpl. eauto.
Qed.

Lemma calm_day_messages (cycles : list cycle) :
  forall st : flags,
    Forall (calm_cycle self day) cycles ->
    snd (run_continuous_monitoring self st cycles) = []
    \/ exists body,
         snd (run_continuous_monitoring self st cycles)
         = [(day, Email false (subject (notifications self) false) body)].
Proof.
  induction cycles as [|c cycles IH]; intros st Hcalm; [left; reflexivity|].
  inversion Hcalm as [|? ? Hc Hrest]; subst.
  pose proof Hc as (Hday & _ & _).
  simpl.
  destruct (calm_cycle_outcome st c Hc) as [(st' & ->)|(st' & body & Hlast & ->)].
  - destruct (IH st' Hrest) as [Hnil|(body & Hone)];
      destruct (run_continuous_monitoring self st' cycles) as [st'' later];
      simpl in *; subst; eauto.
  - rewrite (calm_after_summary cycles st' Hlast Hrest). simpl.
    rewrite Hday. eauto.
Qed.

(** Over passes of one day that meet no rate below the threshold, and no
    mail server that fails after taking the message, the loop sends no alert
    and at most one summary. *)
Theorem calm_day_has_one_summary (st : flags) (cycles : list cycle) :
  Forall (calm_cycle self day) cycles ->
  sent_on day true (snd (run_continuous_monitoring self st cycles)) = 0%nat
  /\ (sent_on day false (snd (run_continuous_monitoring self st cycles)) <= 1)%nat
  /\ (length (snd (run_continuous_monitoring self st cycles)) <= 1)%nat.
Proof.
  intros Hcalm.
  destruct (calm_day_messages cycles st Hcalm) as [->|(body & ->)].
  - unfold sent_on. simpl. repeat split; lia.
  - unfold sent_on. simpl. rewrite String.eqb_refl. simpl. repeat split; lia.
Qed.

End CalmDay.

Lemma calm_day_has_one_summary_witness :
  sent_on "2025-01-27" true
    (snd (@run_continuous_monitoring sample_runtime sample_bot initial_flags
            [ {| cycle_now := midnight; cycle_response := response_5_05;
                 cycle_smtp := Delivered |};
              {| cycle_now := midnight; cycle_response := response_5_05;
                 cycle_smtp := Delivered |} ])) = 0%nat
  /\ (sent_on "2025-01-27" false
        (snd (@run_continuous_monitoring sample_runtime sample_bot initial_flags
                [ {| cycle_now := midnight; cycle_response := response_5_05;
                     cycle_smtp := Delivered |};
                  {| cycle_now := midnight; cycle_response := response_5_05;
                     cycle_smtp := Delivered |} ])) <= 1)%nat
  /\ (length
        (snd (@run_continuous_monitoring sample_runtime sample_bot initial_flags
                [ {| cycle_now := midnight; cycle_response := response_5_05;
                     cycle_smtp := Delivered |};
                  {| cycle_now := midnight; cycle_response := response_5_05;
                     cycle_smtp := Delivered |} ])) <= 1)%nat.
Proof.
  apply (@calm_day_has_one_summary sample_runtime sample_bot "2025-01-27").
  repeat constructor; try discriminate;
    intros r Hr; vm_compute in Hr; injection Hr as <-; reflexivity.
Defined.

(** ** The configuration and the credentials *)

Lemma validate_config_credentials (env : gmap string string) :
  CurrencyConfig.validate_config env
  = negb (falsy (Some (getenv env "CURRENCY_NOTIFICATION_EMAIL" "")))
    && negb (falsy (Some (getenv env "CURRENCY_GMAIL_APP_PASSWORD" ""))).
Proof.
  unfold CurrencyConfig.validate_config.
  change (CurrencyConfig.get_api_config env !! "api_url")
    with (Some CurrencyConfig.api_url).
  change (CurrencyConfig.get_notification_config env !! "email")
    with (Some (getenv env "CURRENCY_NOTIFICATION_EMAIL" "")).
  change (CurrencyConfig.get_notification_config env !! "gmail_app_password")
    with (Some (getenv env "CURRENCY_GMAIL_APP_PASSWORD" "")).
  simpl.
  destruct (getenv env "CURRENCY_NOTIFICATION_EMAIL" "");
    destruct (getenv env "CURRENCY_GMAIL_APP_PASSWORD" ""); reflexivity.
Qed.

(** [validate_config] tells whether mail can go out.  Where it returns
    [False], every send of the manager built from the same environment
    returns [True] without a message; where it returns [True], a send whose
    message renders and whose mail server answers hands that message over. *)
Theorem validate_config_decides_the_send `{PythonRuntime}
    (env : gmap string string) :
  (CurrencyConfig.validate_config env = false ->
   forall now smtp rd is_alert,
     _send_email_notification (CurrencyConfig.notification_manager env)
       now smtp rd is_alert = (true, []))
  /\ (CurrencyConfig.validate_config env = true ->
      forall now rd is_alert body,
        _format_email_message now rd is_alert = Ok body ->
        _send_email_notification (CurrencyConfig.notification_manager env)
          now Delivered rd is_alert
        = (true,
           [Email is_alert
              (subject (CurrencyConfig.notification_manager env) is_alert)
              body])).
Proof.
  rewrite validate_config_credentials.
  split; intros Hv; intros; unfold _send_email_notification;
    change (notification_config (CurrencyConfig.notification_manager env)
              !! "email")
      with (Some (getenv env "CURRENCY_NOTIFICATION_EMAIL" ""));
    change (notification_config (CurrencyConfig.notification_manager env)
              !! "gmail_app_password")
      with (Some (getenv env "CURRENCY_GMAIL_APP_PASSWORD" ""));
    destruct (falsy (Some (getenv env "CURRENCY_NOTIFICATION_EMAIL" "")));
    destruct (falsy (Some (getenv env "CURRENCY_GMAIL_APP_PASSWORD" "")));
    simpl in *; try discriminate; try reflexivity.
  match goal with Hb : _format_email_message _ _ _ = Ok _ |- _ => rewrite Hb end.
  reflexivity.
Qed.

(** ** The recipients *)

(** With [CURRENCY_RECIPIENT_EMAILS] unset or empty the configuration still
    binds ["recipient_emails"], to the empty string, so the message is
    addressed to one blank recipient; the sender address stands in only for
    a manager whose configuration has no such entry. *)
Theorem unset_recipients_are_blank (env : gmap string string)
    (sender_email : string) :
  env !! "CURRENCY_RECIPIENT_EMAILS" = None
  \/ env !! "CURRENCY_RECIPIENT_EMAILS" = Some "" ->
  recipients (CurrencyConfig.notification_manager env) sender_email = [""]
  /\ (forall m : manager,
        notification_config m !! "recipient_emails" = None ->
        contains "," sender_email = false ->
        recipients m sender_email = [strip sender_email]).
Proof.
  intros Hunset. split.
  - unfold recipients.
    change (notification_config (CurrencyConfig.notification_manager env)
              !! "recipient_emails")
      with (Some (getenv env "CURRENCY_RECIPIENT_EMAILS" "")).
    unfold getenv. destruct Hunset as [-> | ->]; reflexivity.
  - intros m Hm Hcomma. unfold recipients. rewrite Hm. simpl.
    rewrite Hcomma. reflexivity.
Qed.

Lemma unset_recipients_are_blank_witness :
  recipients (CurrencyConfig.notification_manager ∅) "bot@example.com" = [""].
Proof.
  apply (unset_recipients_are_blank ∅ "bot@example.com").
  left. reflexivity.
Defined.

(** From a list with commas the blank entries are dropped: no recipient is
    empty, and a list of nothing but commas and white space leaves no
    recipient at all. *)
Theorem listed_recipients_are_not_blank (m : manager)
    (sender_email listed : string) :
  notification_config m !! "recipient_emails" = Some listed ->
  contains "," listed = true ->
  (forall r, In r (recipients m sender_email) -> r <> "")
  /\ (Forall (fun piece => strip piece = "") (split_comma listed) ->
      recipients m sender_email = []).
Proof.
  intros Hm Hcomma. unfold recipients. rewrite Hm. simpl. rewrite Hcomma.
  split.
  - intros r Hr. apply List.filter_In in Hr as [_ Hr].
    destruct r; [discriminate|discriminate].
  - induction (split_comma listed) as [|p ps IH]; intros Hall; [reflexivity|].
    inversion Hall as [|? ? Hp Hps]; subst. simpl. rewrite Hp. simpl.
    apply IH. exact Hps.
Qed.

Lemma listed_recipients_are_not_blank_witness :
  recipients
    {| currency_pair := "CAD-RMB";
       notification_config := <["recipient_emails" := " , "]> ∅ |}
    "bot@example.com" = [].
Proof.
  refine (proj2 (listed_recipients_are_not_blank
                   {| currency_pair := "CAD-RMB";
                      notification_config := <["recipient_emails" := " , "]> ∅ |}
                   "bot@example.com" " , " _ _) _).
  - reflexivity.
  - reflexivity.
  - repeat constructor.
Defined.

(** ** More on the rendered message *)

(** Both kinds of message show the time of the sample as
    [formatted_time] displays it, the name of the currency pair and, in the
    monitor identifier, the moment of rendering. *)
Theorem rendered_context `{PythonRuntime} (now : clock)
    (rd : gmap string value) (is_alert : bool) (R T : spec_float) :
  rd !! "current_rate" = Some (VFloat R) -> rd !! "threshold" = Some (VFloat T) ->
  exists body : string,
    _format_email_message now rd is_alert = Ok body
    /\ contains
         (formatted_time (dict_get_default rd "timestamp" (VStr (isoformat now))))
         body = true
    /\ contains
         (py_str (dict_get_default rd "currency_pair" (VStr "CAD-RMB")))
         body = true
    /\ contains (stamp now) body = true.
Proof.
  intros Hcr Hth. unfold _format_email_message.
  generalize (formatted_time
                (dict_get_default rd "timestamp" (VStr (isoformat now)))) as sT.
  generalize (py_str
                (dict_get_default rd "currency_pair" (VStr "CAD-RMB"))) as sP.
  intros sP sT.
  unfold dict_get_default. rewrite Hcr, Hth.
  cbv beta iota zeta delta [default from_option id].
  unfold _format_alert_email, _format_summary_email.
  generalize (stamp now) as sS. intros sS.
  destruct is_alert; eexists; (split; [reflexivity|]).
  - split; [|split]; find_field.
  - split; [|split]; find_field.
Qed.

Lemma rendered_context_witness :
  exists body : string,
    @_format_email_message sample_runtime morning (test_rate_data "CAD-RMB") false
    = Ok body
    /\ contains "2025-01-27 10:00:00 UTC" body = true
    /\ contains "CAD-RMB" body = true
    /\ contains "20250127-100000" body = true.
Proof.
  destruct (@rendered_context sample_runtime morning (test_rate_data "CAD-RMB")
              false rate_5_02 rate_5_05)
    as (body & Hbody & Htime & Hpair & Hstamp);
    try (vm_compute; reflexivity).
  exists body. repeat split; assumption.
Defined.

Lemma sub_self_is_zero (s : bool) (m : positive) (e : Z) :
  PyFloat.sub (S754_finite s m e) (S754_finite s m e) = PyFloat.zero.
Proof.
  unfold PyFloat.sub, SFsub. rewrite Z.sub_diag. reflexivity.
Qed.

(** A rate equal to a positive finite threshold is shown with the
    difference +0.0000 and the percentage +0.00%. *)
Theorem rate_at_threshold_shows_plus_zero `{PythonRuntime} (now : clock)
    (rd : gmap string value) (is_alert : bool) (m : positive) (e : Z) :
  rd !! "current_rate" = Some (VFloat (S754_finite false m e)) ->
  rd !! "threshold" = Some (VFloat (S754_finite false m e)) ->
  exists body : string,
    _format_email_message now rd is_alert = Ok body
    /\ contains "+0.0000" body = true
    /\ contains "+0.00%" body = true.
Proof.
  intros Hcr Hth.
  destruct (format_email_message_fields now rd is_alert _ _ Hcr Hth)
    as (body & Hbody & _ & _ & HD & HP).
  exists body. split; [exact Hbody|].
  rewrite sub_self_is_zero in HD, HP.
  change (PyFloat.gt (S754_finite false m e) PyFloat.zero) with true in HP.
  change (PyFloat.mul (PyFloat.div PyFloat.zero (S754_finite false m e))
            PyFloat.hundred) with PyFloat.zero in HP.
  split; [exact HD|exact HP].
Qed.

Lemma rate_at_threshold_shows_plus_zero_witness :
  exists body : string,
    @_format_email_message sample_runtime midnight
      (<["current_rate" := VFloat rate_5_05]> (test_rate_data "CAD-RMB")) false
    = Ok body
    /\ contains "+0.0000" body = true
    /\ contains "+0.00%" body = true.
Proof.
  apply (@rate_at_threshold_shows_plus_zero sample_runtime midnight
           (<["current_rate" := VFloat rate_5_05]> (test_rate_data "CAD-RMB"))
           false 5685794529555251 (-50));
    vm_compute; reflexivity.
Defined.

(** Rates given as strings are compared as strings, and a message for them
    cannot be rendered.  When the rate string sorts before the threshold
    string and no alert was sent, no message goes out: with credentials the
    call returns [False] and changes nothing, without them it returns
    [True] and sets [alert_sent_today]. *)
Theorem string_rates_send_nothing `{PythonRuntime} (self : manager)
    (st : flags) (now : clock) (smtp : smtp_outcome)
    (rd : gmap string value) (s t : string) :
  rd !! "current_rate" = Some (VStr s) -> rd !! "threshold" = Some (VStr t) ->
  String.ltb s t = true ->
  alert_sent_today st = false ->
  send_notifications self st now smtp (Some rd)
  = if falsy (notification_config self !! "email")
       || falsy (notification_config self !! "gmail_app_password")
    then (true, {| alert_sent_today := true; last_daily_summary := "" |}, [])
    else (false, st, []).
Proof.
  intros Hcr Hth Hlt Hfresh.
  rewrite (send_notifications_complete self st now smtp rd _ _ Hcr Hth)
    by reflexivity.
  assert (E : evaluate st now (VStr s) (VStr t) = Ok SendAlert).
  { unfold evaluate, _should_send_alert. simpl. rewrite Hlt, Hfresh. reflexivity. }
  rewrite (notify_alert self _ _ smtp rd _ _ E).
  unfold _send_email_notification, _format_email_message, dict_get_default.
  rewrite Hcr, Hth.
  destruct (falsy _ || falsy _); reflexivity.
Qed.

Lemma string_rates_send_nothing_witness :
  @send_notifications sample_runtime configured_manager initial_flags morning
    Delivered
    (Some (<["current_rate" := VStr "5.02"]>
             (<["threshold" := VStr "5.05"]> (test_rate_data "CAD-RMB"))))
  = (false, initial_flags, []).
Proof.
  apply (@string_rates_send_nothing sample_runtime configured_manager
           initial_flags morning Delivered _ "5.02" "5.05");
    vm_compute; reflexivity.
Defined.
